(** * GMAS: the orchestration core of [GMAS_app.py]

    A shallow embedding of the task queue, the dispatch loop, the shared
    result mapping and the four-stage pipeline driver of
    [CentralGuidingAgent], together with the four agents it registers.

    Conventions.
    - Python dictionaries with string keys that the orchestrator owns (a
      task, a partial result, [self.results], [self.agents]) are
      [gmap string _].
    - Values that only travel through the program (search hits, JSON
      bodies) are the inductive [value].
    - A coroutine is a function from the state to an [outcome] and the
      state it leaves behind: it returns, raises, or stays suspended.  The
      model is that of one coroutine running alone on the event loop, as
      [main] runs it.
    - The search client and the HTTP client are parameters of the
      development (the class [Providers]): they answer a request from the
      state of the outside world and move that state.
    - [trace] and [calls] are ghost state: the orchestrator's actions and
      the requests sent, in order.  The program reads neither. *)

From Stdlib Require Import ZArith String List.
From stdpp Require Import base strings gmap list fin_maps pretty.

Local Open Scope Z_scope.
Local Open Scope string_scope.
Local Open Scope list_scope.

(** ** Python values *)

#[warnings="-register-all"] Inductive value : Type :=
| VNone
| VBool (b : bool)
| VInt (n : Z)
| VStr (s : string)
| VList (l : list value)
| VDict (d : list (string * value)).

(** The exceptions this program can meet.  [ExternalError] stands for an
    exception class of a client library (a network failure, a time-out, a
    body that is not JSON). *)
Inductive exn : Type :=
| KeyError (key : value)
| IndexError
| TypeError
| ValueError
| NotImplementedError
| ExternalError (what : string).

Abbreviation Task := (gmap string value) (only parsing).
Abbreviation PartialResult := (gmap string value) (only parsing).

(** *** Subscripting, [v[k]] *)

Fixpoint dict_get (s : string) (d : list (string * value)) : option value :=
  match d with
  | [] => None
  | (k, v) :: d' => if String.eqb k s then Some v else dict_get s d'
  end.

Definition hashable (k : value) : bool :=
  match k with
  | VList _ | VDict _ => false
  | _ => true
  end.

(** [bool] is a subclass of [int]: [True] indexes as 1. *)
Definition as_index (k : value) : option Z :=
  match k with
  | VInt i => Some i
  | VBool b => Some (if b then 1 else 0)
  | _ => None
  end.

(** Sequence indexing, with Python's negative indices. *)
Definition seq_index {A : Type} (l : list A) (i : Z) : option A :=
  if (0 <=? i)%Z then l !! Z.to_nat i
  else if (0 <=? Z.of_nat (length l) + i)%Z
       then l !! Z.to_nat (Z.of_nat (length l) + i)
       else None.

Definition py_getitem (v k : value) : exn + value :=
  match v with
  | VDict d =>
      match k with
      | VStr s => match dict_get s d with
                  | Some x => inr x
                  | None => inl (KeyError k)
                  end
      | _ => if hashable k then inl (KeyError k) else inl TypeError
      end
  | VList l =>
      match as_index k with
      | Some i => match seq_index l i with
                  | Some x => inr x
                  | None => inl IndexError
                  end
      | None => inl TypeError
      end
  | VStr s =>
      match as_index k with
      | Some i => match seq_index (list_ascii_of_string s) i with
                  | Some c => inr (VStr (String c EmptyString))
                  | None => inl IndexError
                  end
      | None => inl TypeError
      end
  | VNone | VBool _ | VInt _ => inl TypeError
  end.

(** A chain of subscripts, [v[k1][k2]...], evaluated left to right. *)
Fixpoint py_path (v : value) (keys : list value) : exn + value :=
  match keys with
  | [] => inr v
  | k :: keys' =>
      match py_getitem v k with
      | inl e => inl e
      | inr v' => py_path v' keys'
      end
  end.

(** ** Coroutines: state passing with exceptions and suspension *)

Inductive outcome (A : Type) : Type :=
| Returned (a : A)
| Raised (e : exn)
| Suspended.
Arguments Returned {A} a.
Arguments Raised {A} e.
Arguments Suspended {A}.

Definition M (S A : Type) : Type := S -> outcome A * S.

Definition ret {S A : Type} (a : A) : M S A := fun s => (Returned a, s).

Definition raise {S A : Type} (e : exn) : M S A := fun s => (Raised e, s).

Definition bind {S A B : Type} (m : M S A) (k : A -> M S B) : M S B :=
  fun s =>
    match m s with
    | (Returned a, s') => k a s'
    | (Raised e, s') => (Raised e, s')
    | (Suspended, s') => (Suspended, s')
    end.

Definition try {S A : Type} (r : exn + A) : M S A :=
  match r with
  | inl e => raise e
  | inr a => ret a
  end.

Declare Scope co_scope.
Delimit Scope co_scope with co.
Notation "x <- c1 ;; c2" := (bind c1 (fun x => c2))
  (at level 100, c1 at next level, right associativity) : co_scope.
Notation "c1 ;; c2" := (bind c1 (fun _ => c2))
  (at level 100, right associativity) : co_scope.
Local Open Scope co_scope.

(** [d[s]] on a dictionary the orchestrator owns. *)
Definition subscript {S : Type} (d : gmap string value) (s : string)
    : M S value :=
  match d !! s with
  | Some v => ret v
  | None => raise (KeyError (VStr s))
  end.

(** ** [asyncio.Queue], unbounded

    [unfinished_tasks] is the counter [put] increments and [task_done]
    decrements; [task_done] raises [ValueError] when it is zero. *)

Record Queue : Type := mkQueue {
  q_items : list (gmap string value);
  unfinished_tasks : nat
}.

Definition Queue_new : Queue := mkQueue [] 0.

Definition Queue_empty (q : Queue) : bool :=
  match q_items q with
  | [] => true
  | _ :: _ => false
  end.

Definition Queue_put (t : Task) (q : Queue) : Queue :=
  mkQueue (q_items q ++ [t]) (S (unfinished_tasks q)).

(** [None]: the queue holds nothing and the caller stays suspended. *)
Definition Queue_get (q : Queue) : option (gmap string value * Queue) :=
  match q_items q with
  | [] => None
  | t :: rest => Some (t, mkQueue rest (unfinished_tasks q))
  end.

Definition Queue_task_done (q : Queue) : exn + Queue :=
  match unfinished_tasks q with
  | O => inl ValueError
  | S n => inr (mkQueue (q_items q) n)
  end.

(** Every queue that [put], [get] and [task_done] can build from
    [Queue_new] has at least as many unfinished tasks as items. *)
Definition Queue_wf (q : Queue) : Prop :=
  (length (q_items q) <= unfinished_tasks q)%nat.

(** ** The outside world and the agents *)

(** A request that leaves the process. *)
Inductive call : Type :=
| SearchCall (query : value) (max_results : Z)
| PostCall (url : string) (headers : list (string * value)) (json : value).

(** Process environment, [os.getenv]: a string or [None]. *)
Definition getenv_value (o : option string) : value :=
  match o with
  | Some s => VStr s
  | None => VNone
  end.

(** The collaborators outside the process, over a world of type [W]:
    the search client, the HTTP client, [repr], and the three variables of
    the process environment the module reads when it is loaded. *)
Class Providers (W : Type) : Type := mkProviders {
  (** [DDGS().text(query, max_results=n)], the hits collected in a list. *)
  ddgs_text : value -> Z -> W -> (exn + list value) * W;
  (** [session.post(url, headers=.., json=..)] followed by
      [response.json()]: the decoded body. *)
  session_post :
    string -> list (string * value) -> value -> W -> (exn + value) * W;
  (** [repr] of a list or dictionary, as an f-string renders it. *)
  py_repr : value -> string;
  AZURE_OPENAI_API_KEY : option string;
  AZURE_OPENAI_ENDPOINT : option string;
  ANTHROPIC_API_KEY : option string
}.

Section Model.

Context {W : Type} {P : Providers W}.

(** What a replacement field of an f-string renders. *)
Definition py_str (v : value) : string :=
  match v with
  | VNone => "None"
  | VBool true => "True"
  | VBool false => "False"
  | VInt n => pretty n
  | VStr s => s
  | VList _ | VDict _ => py_repr v
  end.

(** The world together with the log of the requests sent so far (the log
    is ghost state: the program does not read it). *)
Record Ext : Type := mkExt {
  world : W;
  calls : list call
}.

Definition do_search (query : value) (max_results : Z) : M Ext (list value) :=
  fun x =>
    let (r, w') := ddgs_text query max_results (world x) in
    let x' := mkExt w' (calls x ++ [SearchCall query max_results]) in
    match r with
    | inl e => (Raised e, x')
    | inr hits => (Returned hits, x')
    end.

Definition do_post (url : string) (headers : list (string * value))
    (json : value) : M Ext value :=
  fun x =>
    let (r, w') := session_post url headers json (world x) in
    let x' := mkExt w' (calls x ++ [PostCall url headers json]) in
    match r with
    | inl e => (Raised e, x')
    | inr body => (Returned body, x')
    end.

(** [class Agent]: a name and the coroutine [process_task]. *)
Record Agent : Type := mkAgent {
  name : string;
  process_task : gmap string value -> M Ext (gmap string value)
}.

(** The base class. *)
Definition Agent_base (n : string) : Agent :=
  mkAgent n (fun _ => raise NotImplementedError).

Definition azure_url : string :=
  py_str (getenv_value AZURE_OPENAI_ENDPOINT)
  +:+ "/openai/deployments/gpt-4/chat/completions?api-version=2023-05-15".

Definition azure_headers : list (string * value) :=
  [("api-key", getenv_value AZURE_OPENAI_API_KEY)].

Definition anthropic_url : string :=
  "https://api.anthropic.com/v1/chat/completions".

Definition anthropic_headers : list (string * value) :=
  [("x-api-key", getenv_value ANTHROPIC_API_KEY)].

Definition user_messages (prompt : string) : value :=
  VList [VDict [("role", VStr "user"); ("content", VStr prompt)]].

(** [result['choices'][0]['message']['content']] *)
Definition chat_content (result : value) : exn + value :=
  py_path result [VStr "choices"; VInt 0; VStr "message"; VStr "content"].

(** [result['content'][0]['text']] *)
Definition message_text (result : value) : exn + value :=
  py_path result [VStr "content"; VInt 0; VStr "text"].

Definition ResearchAgent_process_task (task : gmap string value)
    : M Ext (gmap string value) :=
  query <- subscript task "query" ;;
  results <- do_search query 5 ;;
  ret {[ "research_results" := VList results ]}.

Definition writing_prompt (topic research_results : value) : string :=
  "Write a blog post about " +:+ py_str topic
  +:+ " using the following research: " +:+ py_str research_results.

Definition writing_json (prompt : string) : value :=
  VDict [("messages", user_messages prompt); ("max_tokens", VInt 1000)].

Definition WritingAgent_process_task (task : gmap string value)
    : M Ext (gmap string value) :=
  topic <- subscript task "topic" ;;
  research_results <- subscript task "research_results" ;;
  let prompt := writing_prompt topic research_results in
  result <- do_post azure_url azure_headers (writing_json prompt) ;;
  blog_post <- try (chat_content result) ;;
  ret {[ "blog_post" := blog_post ]}.

Definition editing_prompt (blog_post : value) : string :=
  "Edit and improve the following blog post: " +:+ py_str blog_post.

Definition editing_json (prompt : string) : value :=
  VDict [("model", VStr "claude-3-opus-20240229");
         ("messages", user_messages prompt);
         ("max_tokens", VInt 1000)].

Definition EditingAgent_process_task (task : gmap string value)
    : M Ext (gmap string value) :=
  blog_post <- subscript task "blog_post" ;;
  let prompt := editing_prompt blog_post in
  result <- do_post anthropic_url anthropic_headers (editing_json prompt) ;;
  edited_post <- try (message_text result) ;;
  ret {[ "edited_post" := edited_post ]}.

Definition seo_prompt (edited_post : value) : string :=
  "Generate SEO metadata for the following blog post: " +:+ py_str edited_post.

Definition seo_json (prompt : string) : value :=
  VDict [("messages", user_messages prompt); ("max_tokens", VInt 500)].

Definition SEOAgent_process_task (task : gmap string value)
    : M Ext (gmap string value) :=
  edited_post <- subscript task "edited_post" ;;
  let prompt := seo_prompt edited_post in
  result <- do_post azure_url azure_headers (seo_json prompt) ;;
  seo_metadata <- try (chat_content result) ;;
  ret {[ "seo_metadata" := seo_metadata ]}.

Definition ResearchAgent (n : string) : Agent :=
  mkAgent n ResearchAgent_process_task.
Definition WritingAgent (n : string) : Agent :=
  mkAgent n WritingAgent_process_task.
Definition EditingAgent (n : string) : Agent :=
  mkAgent n EditingAgent_process_task.
Definition SEOAgent (n : string) : Agent :=
  mkAgent n SEOAgent_process_task.

(** ** [CentralGuidingAgent] *)

(** What the orchestrator did, in order (ghost state: the program does not
    read it). *)
Inductive event : Type :=
| EvPut (task : gmap string value)
| EvGet (task : gmap string value)
| EvInvoke (key : string) (task : gmap string value)
| EvUpdate (result : gmap string value)
| EvTaskDone.

(** The attributes [agents], [task_queue] and [results] of the object,
    the outside world, and the trace. *)
Record state : Type := mkState {
  agents : gmap string Agent;
  task_queue : Queue;
  results : gmap string value;
  ext : Ext;
  trace : list event
}.

Definition init_agents : gmap string Agent :=
  {[ "research" := ResearchAgent "Research";
     "writing" := WritingAgent "Writing";
     "editing" := EditingAgent "Editing";
     "seo" := SEOAgent "SEO" ]}.

(** [CentralGuidingAgent()], created in the world [x]. *)
Definition CentralGuidingAgent_init (x : Ext) : state :=
  mkState init_agents Queue_new ∅ x [].

(** [await self.task_queue.put(task)] *)
Definition add_task (task : gmap string value) : M state unit :=
  fun st =>
    (Returned tt,
     mkState (agents st) (Queue_put task (task_queue st)) (results st)
             (ext st) (trace st ++ [EvPut task])).

(** [await self.task_queue.get()] *)
Definition queue_get : M state (gmap string value) :=
  fun st =>
    match Queue_get (task_queue st) with
    | None => (Suspended, st)
    | Some (task, q') =>
        (Returned task,
         mkState (agents st) q' (results st) (ext st) (trace st ++ [EvGet task]))
    end.

(** [self.agents[key]]: the registry has string keys only. *)
Definition agents_lookup (key : value) : M state (string * Agent) :=
  fun st =>
    match key with
    | VStr n =>
        match agents st !! n with
        | Some a => (Returned (n, a), st)
        | None => (Raised (KeyError key), st)
        end
    | _ => if hashable key then (Raised (KeyError key), st)
           else (Raised TypeError, st)
    end.

(** [await agent.process_task(task)] *)
Definition invoke (n : string) (a : Agent) (task : gmap string value)
    : M state (gmap string value) :=
  fun st =>
    let (r, x') := process_task a task (ext st) in
    (r, mkState (agents st) (task_queue st) (results st) x'
                (trace st ++ [EvInvoke n task])).

(** [self.results.update(result)] *)
Definition results_update (result : gmap string value) : M state unit :=
  fun st =>
    (Returned tt,
     mkState (agents st) (task_queue st) (result ∪ results st) (ext st)
             (trace st ++ [EvUpdate result])).

(** [self.task_queue.task_done()] *)
Definition queue_task_done : M state unit :=
  fun st =>
    match Queue_task_done (task_queue st) with
    | inl e => (Raised e, st)
    | inr q' =>
        (Returned tt,
         mkState (agents st) q' (results st) (ext st) (trace st ++ [EvTaskDone]))
    end.

(** The body of the loop of [process_tasks]. *)
Definition process_one : M state unit :=
  task <- queue_get ;;
  key <- subscript task "agent" ;;
  na <- agents_lookup key ;;
  result <- invoke (fst na) (snd na) task ;;
  results_update result ;;
  queue_task_done.

(** [while not self.task_queue.empty(): ...], with a bound on the number
    of iterations; running out of it is never returning. *)
Fixpoint drain (fuel : nat) : M state unit :=
  fun st =>
    if Queue_empty (task_queue st) then (Returned tt, st)
    else match fuel with
         | O => (Suspended, st)
         | S fuel' => (process_one ;; drain fuel') st
         end.

(** An iteration removes one item and adds none: the length of the queue
    bounds the number of iterations ([process_tasks_unfold] below). *)
Definition process_tasks : M state unit :=
  fun st => drain (length (q_items (task_queue st))) st.

(** [self.results[key]] *)
Definition results_get (key : string) : M state value :=
  fun st => subscript (results st) key st.

Definition research_task (topic : string) : gmap string value :=
  {[ "agent" := VStr "research"; "query" := VStr topic ]}.

Definition writing_task (topic : string) (research_results : value)
    : gmap string value :=
  {[ "agent" := VStr "writing"; "topic" := VStr topic;
     "research_results" := research_results ]}.

Definition editing_task (blog_post : value) : gmap string value :=
  {[ "agent" := VStr "editing"; "blog_post" := blog_post ]}.

Definition seo_task (edited_post : value) : gmap string value :=
  {[ "agent" := VStr "seo"; "edited_post" := edited_post ]}.

(** The four stages of [run_pipeline] and its [return]: in each stage the
    dictionary display is evaluated (reading [self.results]) before
    [add_task] is called. *)
Definition stage_research (topic : string) : M state unit :=
  add_task (research_task topic) ;;
  process_tasks.

Definition stage_writing (topic : string) : M state unit :=
  research_results <- results_get "research_results" ;;
  add_task (writing_task topic research_results) ;;
  process_tasks.

Definition stage_editing : M state unit :=
  blog_post <- results_get "blog_post" ;;
  add_task (editing_task blog_post) ;;
  process_tasks.

Definition stage_seo : M state unit :=
  edited_post <- results_get "edited_post" ;;
  add_task (seo_task edited_post) ;;
  process_tasks.

Definition final_artifact : M state (gmap string value) :=
  edited_post <- results_get "edited_post" ;;
  seo_metadata <- results_get "seo_metadata" ;;
  ret {[ "blog_post" := edited_post; "seo_metadata" := seo_metadata ]}.

Definition run_pipeline (topic : string) : M state (gmap string value) :=
  stage_research topic ;;
  stage_writing topic ;;
  stage_editing ;;
  stage_seo ;;
  final_artifact.

(** ** States and observations used in the statements *)

(** The state after [get] handed out [task] and left [rest]. *)
Definition dequeued (st : state) (task : gmap string value)
    (rest : list (gmap string value)) : state :=
  mkState (agents st) (mkQueue rest (unfinished_tasks (task_queue st)))
          (results st) (ext st) (trace st ++ [EvGet task]).

(** The state in which the agent registered as [n] was called on [task]
    and left the world as [x']. *)
Definition invoked (st : state) (task : gmap string value)
    (rest : list (gmap string value)) (n : string) (x' : Ext) : state :=
  mkState (agents st) (mkQueue rest (unfinished_tasks (task_queue st)))
          (results st) x' (trace st ++ [EvGet task; EvInvoke n task]).

(** The state after [update] merged [r], before [task_done]. *)
Definition merged (st : state) (task : gmap string value)
    (rest : list (gmap string value)) (n : string) (r : gmap string value)
    (x' : Ext) : state :=
  mkState (agents st) (mkQueue rest (unfinished_tasks (task_queue st)))
          (r ∪ results st) x'
          (trace st ++ [EvGet task; EvInvoke n task; EvUpdate r]).

(** The state after a whole iteration. *)
Definition dispatched (st : state) (task : gmap string value)
    (rest : list (gmap string value)) (n : string) (r : gmap string value)
    (x' : Ext) : state :=
  mkState (agents st)
          (mkQueue rest (Nat.pred (unfinished_tasks (task_queue st))))
          (r ∪ results st) x'
          (trace st ++ [EvGet task; EvInvoke n task; EvUpdate r; EvTaskDone]).

(** The events of one completed iteration: [step] is the registry key
    the task was routed to and the partial result its agent returned. *)
Definition dispatch_events (task : gmap string value)
    (step : string * gmap string value) : list event :=
  [EvGet task; EvInvoke (fst step) task; EvUpdate (snd step); EvTaskDone].

Fixpoint drain_events (tasks : list (gmap string value))
    (steps : list (string * gmap string value)) : list event :=
  match tasks, steps with
  | task :: tasks', step :: steps' =>
      dispatch_events task step ++ drain_events tasks' steps'
  | _, _ => []
  end.

(** [update] after [update], oldest first. *)
Definition merge_all (steps : list (string * gmap string value))
    (res : gmap string value) : gmap string value :=
  fold_left (fun acc step => snd step ∪ acc) steps res.

(** The task names a registered agent, the one of the step. *)
Definition routed (ag : gmap string Agent) (task : gmap string value)
    (step : string * gmap string value) : Prop :=
  task !! "agent" = Some (VStr (fst step)) /\ is_Some (ag !! fst step).

(** [dispatches ag tasks steps x x']: starting in the world [x], each task
    of [tasks] in turn names a registered agent, that agent is called on
    the task in the world the call before it left, and it returns; the
    step of a task is the key it was routed to and the very dictionary the
    call returned; [x'] is the world after the last call. *)
Inductive dispatches (ag : gmap string Agent)
    : list (gmap string value) -> list (string * gmap string value)
      -> Ext -> Ext -> Prop :=
| dispatches_nil (x : Ext) : dispatches ag [] [] x x
| dispatches_cons (task : gmap string value)
    (tasks : list (gmap string value)) (n : string) (a : Agent)
    (r : gmap string value) (steps : list (string * gmap string value))
    (x x1 x' : Ext) :
    task !! "agent" = Some (VStr n) ->
    ag !! n = Some a ->
    process_task a task x = (Returned r, x1) ->
    dispatches ag tasks steps x1 x' ->
    dispatches ag (task :: tasks) ((n, r) :: steps) x x'.

(** The state after [add_task(task)]. *)
Definition queued (st : state) (task : gmap string value) : state :=
  snd (add_task task st).

(** The state after a stage whose task went to the agent registered as
    [n], which returned [r] and left the world as [x']. *)
Definition staged (st : state) (task : gmap string value) (n : string)
    (r : gmap string value) (x' : Ext) : state :=
  dispatched (queued st task) task [] n r x'.

(** The state in which a stage stops when its agent raises. *)
Definition stage_failed (st : state) (task : gmap string value) (n : string)
    (x' : Ext) : state :=
  invoked (queued st task) task [] n x'.

(** The events of a completed stage. *)
Definition stage_events (task : gmap string value) (n : string)
    (r : gmap string value) : list event :=
  EvPut task :: dispatch_events task (n, r).

(** The state after the four stages, given what each agent returned and
    the world it left. *)
Definition completed (topic : string) (st : state)
    (v1 v2 v3 v4 : value) (x1 x2 x3 x4 : Ext) : state :=
  staged
    (staged
       (staged
          (staged st (research_task topic) "research"
                  {[ "research_results" := v1 ]} x1)
          (writing_task topic v1) "writing" {[ "blog_post" := v2 ]} x2)
       (editing_task v2) "editing" {[ "edited_post" := v3 ]} x3)
    (seo_task v3) "seo" {[ "seo_metadata" := v4 ]} x4.

Definition invoked_keys (tr : list event) : list string :=
  omap (fun ev => match ev with EvInvoke n _ => Some n | _ => None end) tr.

Definition written_keys (tr : list event) : list string :=
  mbind (fun ev => match ev with
                   | EvUpdate r => fst <$> map_to_list r
                   | _ => []
                   end) tr.

(** The keys of [self.results] after a run. *)
Definition result_keys : gset string :=
  {[ "research_results"; "blog_post"; "edited_post"; "seo_metadata" ]}.

(** An agent that returns on every task, in every world. *)
Definition always_returns (a : Agent) : Prop :=
  forall (task : gmap string value) (x : Ext),
    exists (r : gmap string value) (x' : Ext),
      process_task a task x = (Returned r, x').

(** The task names a registered agent that always returns. *)
Definition served (ag : gmap string Agent) (task : gmap string value) : Prop :=
  exists (n : string) (a : Agent),
    task !! "agent" = Some (VStr n) /\ ag !! n = Some a /\ always_returns a.

Definition extends (st st' : state) : Prop :=
  exists tl : list event, trace st' = trace st ++ tl.

Definition growing {A : Type} (m : M state A) : Prop :=
  forall st : state, extends st (snd (m st)).

(** The world after the request [c] was sent and answered. *)
Definition sent (x : Ext) (w' : W) (c : call) : Ext :=
  mkExt w' (calls x ++ [c]).

(** One POST, the text taken out of the body by [extract], returned
    under [key]. *)
Definition post_outcome (url : string) (headers : list (string * value))
    (json : value) (extract : value -> exn + value) (key : string) (x : Ext)
    : outcome (gmap string value) * Ext :=
  let (r, w') := session_post url headers json (world x) in
  match r with
  | inl e => (Raised e, sent x w' (PostCall url headers json))
  | inr body =>
      match extract body with
      | inl e => (Raised e, sent x w' (PostCall url headers json))
      | inr v => (Returned {[ key := v ]}, sent x w' (PostCall url headers json))
      end
  end.

(** Whenever the agent returns, it returns a dictionary of the one key. *)
Definition produces (a : Agent) (key : string) : Prop :=
  forall (task : gmap string value) (x x' : Ext) (r : gmap string value),
    process_task a task x = (Returned r, x') ->
    exists v : value, r = {[ key := v ]}.

(** What every step of the orchestrator keeps: the registry, the keys of
    [results], and the well-formedness of the queue. *)
Definition evolves (st st' : state) : Prop :=
  agents st' = agents st
  /\ dom (results st) ⊆ dom (results st')
  /\ (Queue_wf (task_queue st) -> Queue_wf (task_queue st')).

Definition stable {A : Type} (m : M state A) : Prop :=
  forall st : state, evolves st (snd (m st)).

(** The keys of the registry [__init__] builds. *)
Definition agent_keys : gset string :=
  {[ "research"; "writing"; "editing"; "seo" ]}.

End Model.

Arguments Ext : clear implicits.
Arguments Agent : clear implicits.
Arguments state : clear implicits.

(** ** Scenarios

    A world that counts the requests it has answered; the search answers
    with [answer], the n-th request overall with [answers n]. *)

Definition mock_search (answer : exn + list value)
    : value -> Z -> nat -> (exn + list value) * nat :=
  fun _ _ w => (answer, S w).

Definition mock_post (answers : nat -> exn + value)
    : string -> list (string * value) -> value -> nat -> (exn + value) * nat :=
  fun _ _ _ w => (answers w, S w).

(** Stands for [repr]; no property here depends on the text of a prompt. *)
Definition mock_repr : value -> string := fun _ => "[...]".

Definition mock_providers (search : exn + list value)
    (answers : nat -> exn + value) : Providers nat :=
  mkProviders nat (mock_search search) (mock_post answers) mock_repr
              None None None.

Definition azure_body (text : value) : value :=
  VDict [("choices", VList [VDict [("message", VDict [("content", text)])]])].

Definition anthropic_body (text : value) : value :=
  VDict [("content", VList [VDict [("text", text)]])].

Definition hits_A : list value :=
  [VDict [("title", VStr "A"); ("url", VStr "u1"); ("snippet", VStr "s1")]].

(** Research, Writing, Editing and SEO answering as in the scenario of the
    specification, the editing text being [edited]. *)
Definition answers_ok (edited : value) (w : nat) : exn + value :=
  match w with
  | 1%nat => inr (azure_body (VStr "Draft text"))
  | 2%nat => inr (anthropic_body edited)
  | 3%nat => inr (azure_body (VStr "meta: remote work"))
  | _ => inl (ExternalError "unexpected request")
  end.

(** The same, the request number [k] failing. *)
Definition answers_failing (k w : nat) : exn + value :=
  if Nat.eqb w k then inl (ExternalError "provider down")
  else answers_ok (VStr "Edited text") w.

(** [CentralGuidingAgent()] in a fresh mock world. *)
Definition fresh (P : Providers nat) : state nat :=
  CentralGuidingAgent_init (P := P) (mkExt 0%nat []).

Definition scenario_providers : Providers nat :=
  mock_providers (inr hits_A) (answers_ok (VStr "Edited text")).

Definition scenario : state nat := fresh scenario_providers.

Definition remote_work : string := "Remote Work Trends".

(** The editing provider answers with the empty text. *)
Definition empty_edit : state nat :=
  fresh (mock_providers (inr hits_A) (answers_ok (VStr ""))).

Definition nonexistent_task : gmap string value :=
  {[ "agent" := VStr "nonexistent" ]}.

(** A research task and a writing task queued together. *)
Definition two_queued : state nat :=
  queued (queued scenario (research_task remote_work))
         (writing_task remote_work (VList [])).

(** *** A provider that fails *)

Definition provider_down : exn := ExternalError "provider down".

(** The search fails. *)
Definition search_down_providers : Providers nat :=
  mock_providers (inl provider_down) (answers_failing 0).

Definition search_down : state nat := fresh search_down_providers.

(** The request number [k] fails: 1 is Writing's, 2 Editing's, 3 SEO's. *)
Definition failing_providers (k : nat) : Providers nat :=
  mock_providers (inr hits_A) (answers_failing k).

Definition failing (k : nat) : state nat := fresh (failing_providers k).

Definition after_research (st : state nat) : state nat :=
  snd (stage_research remote_work st).

Definition after_writing (st : state nat) : state nat :=
  snd (stage_writing remote_work (after_research st)).

Definition after_editing (st : state nat) : state nat :=
  snd (stage_editing (after_writing st)).

(** *** A stage that leaves its key out *)

(** An agent that returns an empty dictionary. *)
Definition stub_agent : Agent nat := mkAgent "Stub" (fun _ => ret ∅).

(** A fresh orchestrator whose agent [n] was replaced by the stub. *)
Definition with_stub (n : string) : state nat :=
  mkState (<[ n := stub_agent ]> (agents scenario)) Queue_new ∅
          (mkExt 0%nat []) [].

(** *** Tasks that lack a field, or hold [None] in it *)

(** A task that names its agent and nothing else. *)
Definition bare_task (n : string) : gmap string value :=
  {[ "agent" := VStr n ]}.

Definition topic_only_task : gmap string value :=
  {[ "agent" := VStr "writing"; "topic" := VStr remote_work ]}.

(** The editing provider answers whatever it is sent. *)
Definition editing_answers (w : nat) : exn + value :=
  inr (anthropic_body (VStr "Edited text")).

Definition none_queued : state nat :=
  queued (fresh (mock_providers (inr hits_A) editing_answers))
         (editing_task VNone).

(** *** Queues for the dispatch loop *)

(** A task without selector, and tasks whose selector is no string. *)
Definition unaddressed_task : gmap string value :=
  {[ "query" := VStr remote_work ]}.

Definition none_selector_task : gmap string value :=
  {[ "agent" := VNone ]}.

Definition list_selector_task : gmap string value :=
  {[ "agent" := VList [VStr "research"] ]}.

(** A research task, a task for an unknown agent, a writing task. *)
Definition three_queued : state nat :=
  queued (queued (queued scenario (research_task remote_work))
                 nonexistent_task)
         (writing_task remote_work (VList [])).

(** An orchestrator whose only agent is of the base class. *)
Definition with_base : state nat :=
  mkState {[ "draft" := Agent_base "Draft" ]} Queue_new ∅ (mkExt 0%nat []) [].

(** * Properties *)

Section Properties.

Context {W : Type} {P : Providers W}.

Local Abbreviation Ext := (Ext W) (only parsing).
Local Abbreviation Agent := (Agent W) (only parsing).
Local Abbreviation state := (state W) (only parsing).
Local Abbreviation growing := (growing (W := W)) (only parsing).

(** ** Sequencing *)

Lemma bind_returned {S A B : Type} (m : M S A) (k : A -> M S B)
    (s s' : S) (a : A) :
  m s = (Returned a, s') -> bind m k s = k a s'.
Proof. unfold bind. intros ->. reflexivity. Qed.

Lemma bind_raised {S A B : Type} (m : M S A) (k : A -> M S B)
    (s s' : S) (e : exn) :
  m s = (Raised e, s') -> bind m k s = (Raised e, s').
Proof. unfold bind. intros ->. reflexivity. Qed.

Lemma bind_returned_inv {S A B : Type} (m : M S A) (k : A -> M S B)
    (s s' : S) (b : B) :
  bind m k s = (Returned b, s') ->
  exists (a : A) (s1 : S), m s = (Returned a, s1) /\ k a s1 = (Returned b, s').
Proof.
  unfold bind. destruct (m s) as [[a | e | ] s1]; try discriminate. eauto.
Qed.

(** ** The dispatch loop, one iteration at a time *)

Lemma process_one_eq (st : state) (task : gmap string value)
    (rest : list (gmap string value)) :
  q_items (task_queue st) = task :: rest ->
  process_one st =
    match task !! "agent" with
    | None => (Raised (KeyError (VStr "agent")), dequeued st task rest)
    | Some key =>
        match agents_lookup key (dequeued st task rest) with
        | (Returned (n, a), _) =>
            match process_task a task (ext st) with
            | (Returned r, x') =>
                match unfinished_tasks (task_queue st) with
                | O => (Raised ValueError, merged st task rest n r x')
                | S _ => (Returned tt, dispatched st task rest n r x')
                end
            | (Raised e, x') => (Raised e, invoked st task rest n x')
            | (Suspended, x') => (Suspended, invoked st task rest n x')
            end
        | (Raised e, _) => (Raised e, dequeued st task rest)
        | (Suspended, _) => (Suspended, dequeued st task rest)
        end
    end.
Proof.
  destruct st as [ag [items u] res x tr]; simpl; intros ->.
  unfold process_one, bind, queue_get, subscript, dequeued; simpl.
  destruct (task !! "agent") as [key|]; simpl; [|reflexivity].
  unfold agents_lookup; simpl.
  destruct key as [ | b | z | n | l | d]; simpl; try reflexivity.
  destruct (ag !! n) as [a|]; simpl; [|reflexivity].
  unfold invoke; simpl.
  destruct (process_task a task x) as [[r | e | ] x'];
    unfold invoked, merged, dispatched; simpl;
    [ | rewrite <- !app_assoc; reflexivity ..].
  unfold queue_task_done, Queue_task_done; simpl.
  destruct u as [|u]; simpl; rewrite <- !app_assoc; reflexivity.
Qed.

(** An iteration, however it ends, takes exactly the head off the queue
    and leaves the registry alone. *)
Lemma process_one_frame (st : state) (task : gmap string value)
    (rest : list (gmap string value)) :
  q_items (task_queue st) = task :: rest ->
  q_items (task_queue (snd (process_one st))) = rest
  /\ agents (snd (process_one st)) = agents st.
Proof.
  intros H. rewrite (process_one_eq _ _ _ H).
  unfold agents_lookup.
  repeat case_match; simplify_eq; simpl; auto.
Qed.

Lemma drain_enough (fuel : nat) :
  forall st : state,
    (length (q_items (task_queue st)) <= fuel)%nat ->
    drain fuel st = drain (length (q_items (task_queue st))) st.
Proof.
  induction fuel as [|fuel IH]; intros st Hlen.
  - destruct (q_items (task_queue st)) eqn:E; simpl in *; [reflexivity | lia].
  - destruct (q_items (task_queue st)) as [|task rest] eqn:E.
    + simpl. unfold Queue_empty. rewrite E. reflexivity.
    + simpl in *. unfold Queue_empty. rewrite E. unfold bind.
      pose proof (process_one_frame _ _ _ E) as [Hq _].
      destruct (process_one st) as [[[] | e | ] s1]; simpl in *; try reflexivity.
      rewrite IH by (rewrite Hq; lia). rewrite Hq. reflexivity.
Qed.

(** The loop equation of [while not self.task_queue.empty(): body]. *)
Lemma process_tasks_unfold (st : state) :
  process_tasks st =
    if Queue_empty (task_queue st) then (Returned tt, st)
    else (process_one ;; process_tasks) st.
Proof.
  unfold process_tasks at 1.
  destruct (q_items (task_queue st)) as [|task rest] eqn:E.
  - simpl. unfold Queue_empty. rewrite E. reflexivity.
  - simpl. unfold Queue_empty. rewrite E. unfold bind.
    pose proof (process_one_frame _ _ _ E) as [Hq _].
    destruct (process_one st) as [[[] | e | ] s1]; simpl in *; try reflexivity.
    unfold process_tasks. rewrite Hq. reflexivity.
Qed.

(** ** Properties of the dispatch loop *)

(** C10. On an empty queue [process_tasks] returns at once (it is not
    left suspended on [get]) and the whole state, queue and [results]
    included, is the one it was called in. *)
Theorem process_tasks_empty_queue (st : state) :
  q_items (task_queue st) = [] ->
  process_tasks st = (Returned tt, st).
Proof.
  intros E. rewrite process_tasks_unfold. unfold Queue_empty. rewrite E.
  reflexivity.
Qed.

(** The loop does return when the agents do: on a queue built by [put],
    [get] and [task_done], [task_done] never raises and the bound on the
    iterations is never reached. *)
Lemma process_tasks_returns (st : state) :
  Queue_wf (task_queue st) ->
  Forall (served (agents st)) (q_items (task_queue st)) ->
  exists st' : state, process_tasks st = (Returned tt, st').
Proof.
  remember (q_items (task_queue st)) as items eqn:E.
  revert st E. induction items as [|task rest IH]; intros st E Hwf Hall.
  - exists st. rewrite process_tasks_unfold. unfold Queue_empty.
    rewrite <- E. reflexivity.
  - symmetry in E. inversion Hall as [|? ? (n & a & Hkey & Ha & Hret) Hrest];
      subst.
    destruct (Hret task (ext st)) as (r & x' & Hp).
    unfold Queue_wf in Hwf. rewrite E in Hwf. simpl in Hwf.
    destruct (unfinished_tasks (task_queue st)) as [|u] eqn:Hu; [lia|].
    destruct (IH (dispatched st task rest n r x') eq_refl) as [st' Hst'].
    + unfold Queue_wf. simpl. rewrite Hu. simpl. lia.
    + exact Hrest.
    + exists st'. rewrite process_tasks_unfold. unfold Queue_empty.
      rewrite E. erewrite bind_returned; [exact Hst'|].
      rewrite (process_one_eq _ _ _ E), Hkey. unfold agents_lookup. simpl.
      rewrite Ha, Hp, Hu. reflexivity.
Qed.

(** C4. When [process_tasks] returns, the queue is empty, and the trace
    grew by one block [get; invoke; update; task_done] per task that was
    queued, in the order of the queue: every task was dispatched once, to
    the agent it names, none was skipped or moved.  The step of a task
    holds what the call of that agent on that task returned, in the world
    the call before it left ([dispatches]); it is this output that the
    block of the task merges, before the next task is taken, and
    [results] is the store it started as with these outputs merged in
    order; the world is the one the last call left. *)
Theorem process_tasks_drains_fifo (st st' : state) :
  process_tasks st = (Returned tt, st') ->
  q_items (task_queue st') = []
  /\ exists steps : list (string * gmap string value),
       Forall2 (routed (agents st)) (q_items (task_queue st)) steps
       /\ dispatches (agents st) (q_items (task_queue st)) steps
            (ext st) (ext st')
       /\ trace st' = trace st ++ drain_events (q_items (task_queue st)) steps
       /\ results st' = merge_all steps (results st).
Proof.
  remember (q_items (task_queue st)) as items eqn:E.
  revert st E. induction items as [|task rest IH]; intros st E Hrun.
  - rewrite process_tasks_unfold in Hrun. unfold Queue_empty in Hrun.
    rewrite <- E in Hrun. injection Hrun as <-. split; [auto|].
    exists []. simpl. rewrite app_nil_r. repeat split; constructor.
  - symmetry in E. rewrite process_tasks_unfold in Hrun.
    unfold Queue_empty in Hrun. rewrite E in Hrun. unfold bind in Hrun.
    rewrite (process_one_eq _ _ _ E) in Hrun.
    destruct (task !! "agent") as [key|] eqn:Hkey; [|discriminate].
    unfold agents_lookup in Hrun.
    destruct key as [ | b | z | n | l | d]; simpl in Hrun; try discriminate.
    destruct (agents st !! n) as [a|] eqn:Ha; simpl in Hrun; [|discriminate].
    destruct (process_task a task (ext st)) as [[r | e | ] x'] eqn:Hp;
      try discriminate.
    destruct (unfinished_tasks (task_queue st)) as [|u] eqn:Hu; [discriminate|].
    destruct (IH (dispatched st task rest n r x') eq_refl Hrun)
      as (Hempty & steps & Hrouted & Hcalls & Htrace & Hres).
    split; [exact Hempty|].
    exists ((n, r) :: steps).
    split; [constructor; [split; simpl; eauto | exact Hrouted]|].
    split; [exact (dispatches_cons _ _ _ _ _ _ _ _ _ _ Hkey Ha Hp Hcalls)|].
    split; [|exact Hres].
    rewrite Htrace. simpl. rewrite <- app_assoc. reflexivity.
Qed.

(** C6. A task at the head of the queue whose ['agent'] names no
    registered agent makes [process_tasks] raise the [KeyError] of the
    registry lookup (the code's form of the spec's UnknownAgentError),
    keyed by that name.  The task has been taken off the queue; no agent
    was called and the world, with its log of requests, is untouched;
    [results] is unchanged. *)
Theorem unknown_agent_raises_before_any_call (st : state)
    (task : gmap string value) (rest : list (gmap string value)) (n : string) :
  q_items (task_queue st) = task :: rest ->
  task !! "agent" = Some (VStr n) ->
  agents st !! n = None ->
  exists st' : state,
    process_tasks st = (Raised (KeyError (VStr n)), st')
    /\ results st' = results st
    /\ ext st' = ext st
    /\ trace st' = trace st ++ [EvGet task]
    /\ q_items (task_queue st') = rest.
Proof.
  intros E Hkey Ha. exists (dequeued st task rest).
  split; [|repeat split].
  rewrite process_tasks_unfold. unfold Queue_empty. rewrite E.
  apply bind_raised. rewrite (process_one_eq _ _ _ E), Hkey.
  unfold agents_lookup. simpl. rewrite Ha. reflexivity.
Qed.

(** An exception of the agent of the task at the head of the queue is the
    outcome of [process_tasks]. *)
Lemma dispatch_raises (st : state) (task : gmap string value)
    (rest : list (gmap string value)) (n : string) (a : Agent) (e : exn)
    (x' : Ext) :
  q_items (task_queue st) = task :: rest ->
  task !! "agent" = Some (VStr n) ->
  agents st !! n = Some a ->
  process_task a task (ext st) = (Raised e, x') ->
  process_tasks st = (Raised e, invoked st task rest n x').
Proof.
  intros E Hkey Ha Hp. rewrite process_tasks_unfold. unfold Queue_empty.
  rewrite E. apply bind_raised. rewrite (process_one_eq _ _ _ E), Hkey.
  unfold agents_lookup. simpl. rewrite Ha, Hp. reflexivity.
Qed.

(** ** A stage: one task queued on an empty queue, then the loop *)

Lemma stage_single (st : state) (task : gmap string value) :
  q_items (task_queue st) = [] ->
  (add_task task ;; process_tasks) st = process_one (queued st task).
Proof.
  intros E.
  change ((add_task task ;; process_tasks) st)
    with (process_tasks (queued st task)).
  assert (Hq : q_items (task_queue (queued st task)) = [task])
    by (simpl; rewrite E; reflexivity).
  rewrite process_tasks_unfold. unfold Queue_empty. rewrite Hq. unfold bind.
  pose proof (process_one_frame _ _ _ Hq) as [Hrest _].
  destruct (process_one (queued st task)) as [[[] | e | ] s1]; simpl in *;
    try reflexivity.
  rewrite process_tasks_unfold. unfold Queue_empty. rewrite Hrest. reflexivity.
Qed.

Lemma stage_known (st : state) (task : gmap string value) (n : string)
    (a : Agent) :
  q_items (task_queue st) = [] ->
  task !! "agent" = Some (VStr n) ->
  agents st !! n = Some a ->
  (add_task task ;; process_tasks) st =
    match process_task a task (ext st) with
    | (Returned r, x') => (Returned tt, staged st task n r x')
    | (Raised e, x') => (Raised e, stage_failed st task n x')
    | (Suspended, x') => (Suspended, stage_failed st task n x')
    end.
Proof.
  intros E Hkey Ha. rewrite (stage_single _ _ E).
  rewrite (process_one_eq _ task []) by (simpl; rewrite E; reflexivity).
  rewrite Hkey. unfold agents_lookup. simpl. rewrite Ha. reflexivity.
Qed.

Lemma stage_unknown (st : state) (task : gmap string value) (n : string) :
  q_items (task_queue st) = [] ->
  task !! "agent" = Some (VStr n) ->
  agents st !! n = None ->
  (add_task task ;; process_tasks) st =
    (Raised (KeyError (VStr n)), dequeued (queued st task) task []).
Proof.
  intros E Hkey Ha. rewrite (stage_single _ _ E).
  rewrite (process_one_eq _ task []) by (simpl; rewrite E; reflexivity).
  rewrite Hkey. unfold agents_lookup. simpl. rewrite Ha. reflexivity.
Qed.

Lemma stage_returned_inv (st st' : state) (task : gmap string value)
    (n : string) :
  q_items (task_queue st) = [] ->
  task !! "agent" = Some (VStr n) ->
  (add_task task ;; process_tasks) st = (Returned tt, st') ->
  exists (a : Agent) (r : gmap string value) (x' : Ext),
    agents st !! n = Some a
    /\ process_task a task (ext st) = (Returned r, x')
    /\ st' = staged st task n r x'.
Proof.
  intros E Hkey Hrun.
  destruct (agents st !! n) as [a|] eqn:Ha.
  - rewrite (stage_known _ _ _ _ E Hkey Ha) in Hrun.
    destruct (process_task a task (ext st)) as [[r | e | ] x'] eqn:Hp;
      try discriminate.
    injection Hrun as <-. eauto 6.
  - rewrite (stage_unknown _ _ _ E Hkey Ha) in Hrun. discriminate.
Qed.

Lemma staged_queue_empty (st : state) (task : gmap string value) (n : string)
    (r : gmap string value) (x' : Ext) :
  q_items (task_queue (staged st task n r x')) = [].
Proof. reflexivity. Qed.

Lemma staged_trace (st : state) (task : gmap string value) (n : string)
    (r : gmap string value) (x' : Ext) :
  trace (staged st task n r x')
  = trace st ++ EvPut task :: dispatch_events task (n, r).
Proof. simpl. rewrite <- app_assoc. reflexivity. Qed.

Lemma stage_failed_trace (st : state) (task : gmap string value) (n : string)
    (x' : Ext) :
  trace (stage_failed st task n x')
  = trace st ++ [EvPut task; EvGet task; EvInvoke n task].
Proof. simpl. rewrite <- app_assoc. reflexivity. Qed.

(** The [return] statement reads ['edited_post'], then ['seo_metadata']. *)
Lemma final_artifact_eq (st : state) :
  final_artifact st =
    match results st !! "edited_post" with
    | None => (Raised (KeyError (VStr "edited_post")), st)
    | Some edited_post =>
        match results st !! "seo_metadata" with
        | None => (Raised (KeyError (VStr "seo_metadata")), st)
        | Some seo_metadata =>
            (Returned {[ "blog_post" := edited_post;
                         "seo_metadata" := seo_metadata ]}, st)
        end
    end.
Proof.
  unfold final_artifact, bind, results_get, subscript, ret, raise.
  destruct (results st !! "edited_post"); [|reflexivity].
  destruct (results st !! "seo_metadata"); reflexivity.
Qed.

(** Each later stage first reads the key it needs from [self.results]. *)
Lemma stage_writing_eq (topic : string) (st : state) :
  stage_writing topic st =
    match results st !! "research_results" with
    | Some v => (add_task (writing_task topic v) ;; process_tasks) st
    | None => (Raised (KeyError (VStr "research_results")), st)
    end.
Proof.
  unfold stage_writing, bind at 1, results_get, subscript.
  destruct (results st !! "research_results"); reflexivity.
Qed.

Lemma stage_editing_eq (st : state) :
  stage_editing st =
    match results st !! "blog_post" with
    | Some v => (add_task (editing_task v) ;; process_tasks) st
    | None => (Raised (KeyError (VStr "blog_post")), st)
    end.
Proof.
  unfold stage_editing, bind at 1, results_get, subscript.
  destruct (results st !! "blog_post"); reflexivity.
Qed.

Lemma stage_seo_eq (st : state) :
  stage_seo st =
    match results st !! "edited_post" with
    | Some v => (add_task (seo_task v) ;; process_tasks) st
    | None => (Raised (KeyError (VStr "edited_post")), st)
    end.
Proof.
  unfold stage_seo, bind at 1, results_get, subscript.
  destruct (results st !! "edited_post"); reflexivity.
Qed.

Lemma stage_research_inv (topic : string) (st st' : state) :
  q_items (task_queue st) = [] ->
  stage_research topic st = (Returned tt, st') ->
  exists (a : Agent) (r : gmap string value) (x' : Ext),
    agents st !! "research" = Some a
    /\ process_task a (research_task topic) (ext st) = (Returned r, x')
    /\ st' = staged st (research_task topic) "research" r x'.
Proof.
  intros E Hrun. apply (stage_returned_inv _ _ _ "research" E); [|exact Hrun].
  reflexivity.
Qed.

Lemma stage_writing_inv (topic : string) (st st' : state) :
  q_items (task_queue st) = [] ->
  stage_writing topic st = (Returned tt, st') ->
  exists (v : value) (a : Agent) (r : gmap string value) (x' : Ext),
    results st !! "research_results" = Some v
    /\ agents st !! "writing" = Some a
    /\ process_task a (writing_task topic v) (ext st) = (Returned r, x')
    /\ st' = staged st (writing_task topic v) "writing" r x'.
Proof.
  intros E Hrun. rewrite stage_writing_eq in Hrun.
  destruct (results st !! "research_results") as [v|]; [|discriminate].
  destruct (stage_returned_inv st st' (writing_task topic v) "writing" E eq_refl Hrun)
    as (a & r & x' & ? & ? & ?).
  eauto 8.
Qed.

Lemma stage_editing_inv (st st' : state) :
  q_items (task_queue st) = [] ->
  stage_editing st = (Returned tt, st') ->
  exists (v : value) (a : Agent) (r : gmap string value) (x' : Ext),
    results st !! "blog_post" = Some v
    /\ agents st !! "editing" = Some a
    /\ process_task a (editing_task v) (ext st) = (Returned r, x')
    /\ st' = staged st (editing_task v) "editing" r x'.
Proof.
  intros E Hrun. rewrite stage_editing_eq in Hrun.
  destruct (results st !! "blog_post") as [v|]; [|discriminate].
  destruct (stage_returned_inv st st' (editing_task v) "editing" E eq_refl Hrun)
    as (a & r & x' & ? & ? & ?).
  eauto 8.
Qed.

Lemma stage_seo_inv (st st' : state) :
  q_items (task_queue st) = [] ->
  stage_seo st = (Returned tt, st') ->
  exists (v : value) (a : Agent) (r : gmap string value) (x' : Ext),
    results st !! "edited_post" = Some v
    /\ agents st !! "seo" = Some a
    /\ process_task a (seo_task v) (ext st) = (Returned r, x')
    /\ st' = staged st (seo_task v) "seo" r x'.
Proof.
  intros E Hrun. rewrite stage_seo_eq in Hrun.
  destruct (results st !! "edited_post") as [v|]; [|discriminate].
  destruct (stage_returned_inv st st' (seo_task v) "seo" E eq_refl Hrun)
    as (a & r & x' & ? & ? & ?).
  eauto 8.
Qed.

Lemma staged_results (st : state) (task : gmap string value) (n : string)
    (r : gmap string value) (x' : Ext) :
  results (staged st task n r x') = r ∪ results st.
Proof. reflexivity. Qed.

Lemma staged_agents (st : state) (task : gmap string value) (n : string)
    (r : gmap string value) (x' : Ext) :
  agents (staged st task n r x') = agents st.
Proof. reflexivity. Qed.

Lemma staged_ext (st : state) (task : gmap string value) (n : string)
    (r : gmap string value) (x' : Ext) :
  ext (staged st task n r x') = x'.
Proof. reflexivity. Qed.

(** ** The trace only grows *)

Lemma extends_refl (st : state) : extends st st.
Proof. exists []. rewrite app_nil_r. reflexivity. Qed.

Lemma extends_trans (st1 st2 st3 : state) :
  extends st1 st2 -> extends st2 st3 -> extends st1 st3.
Proof.
  intros [t1 H1] [t2 H2]. exists (t1 ++ t2).
  rewrite H2, H1, app_assoc. reflexivity.
Qed.

Lemma extends_app (st st' : state) (tl : list event) :
  trace st' = trace st ++ tl -> extends st st'.
Proof. intros H. exists tl. exact H. Qed.

Lemma growing_bind {A B : Type} (m : M state A) (k : A -> M state B) :
  growing m -> (forall a : A, growing (k a)) -> growing (bind m k).
Proof.
  intros Hm Hk st. unfold bind. specialize (Hm st).
  destruct (m st) as [[a | e | ] s1]; simpl in *; try exact Hm.
  eapply extends_trans; [exact Hm | apply Hk].
Qed.

Lemma growing_add_task (task : gmap string value) : growing (add_task task).
Proof. intros st. eapply extends_app. reflexivity. Qed.

Lemma growing_results_get (key : string) : growing (results_get key).
Proof.
  intros st. unfold results_get, subscript.
  destruct (results st !! key); apply extends_refl.
Qed.

Lemma growing_process_one : growing process_one.
Proof.
  intros st. destruct (q_items (task_queue st)) as [|task rest] eqn:E.
  - unfold process_one, bind, queue_get, Queue_get. rewrite E.
    apply extends_refl.
  - rewrite (process_one_eq _ _ _ E). unfold agents_lookup.
    repeat case_match; simplify_eq; simpl; eapply extends_app; reflexivity.
Qed.

Lemma growing_drain (fuel : nat) : growing (drain fuel).
Proof.
  induction fuel as [|fuel IH]; intros st; simpl;
    destruct (Queue_empty (task_queue st)); try apply extends_refl.
  apply (growing_bind process_one (fun _ => drain fuel));
    [apply growing_process_one | intros _; exact IH].
Qed.

Lemma growing_process_tasks : growing process_tasks.
Proof. intros st. apply growing_drain. Qed.

Lemma growing_stage (task : gmap string value) :
  growing (add_task task ;; process_tasks).
Proof.
  apply growing_bind; [apply growing_add_task|].
  intros _. apply growing_process_tasks.
Qed.

Lemma growing_stage_editing : growing stage_editing.
Proof.
  apply growing_bind; [apply growing_results_get|].
  intros v. apply growing_stage.
Qed.

Lemma growing_stage_seo : growing stage_seo.
Proof.
  apply growing_bind; [apply growing_results_get|].
  intros v. apply growing_stage.
Qed.

Lemma growing_final_artifact : growing final_artifact.
Proof.
  apply growing_bind; [apply growing_results_get|]. intros v.
  apply growing_bind; [apply growing_results_get|]. intros v'.
  intros st. apply extends_refl.
Qed.

(** ** The four registered agents *)

Lemma ResearchAgent_eq (task : gmap string value) (x : Ext) :
  ResearchAgent_process_task task x =
    match task !! "query" with
    | None => (Raised (KeyError (VStr "query")), x)
    | Some q =>
        let (r, w') := ddgs_text q 5 (world x) in
        match r with
        | inl e => (Raised e, sent x w' (SearchCall q 5))
        | inr hits =>
            (Returned {[ "research_results" := VList hits ]},
             sent x w' (SearchCall q 5))
        end
    end.
Proof.
  unfold ResearchAgent_process_task, bind, subscript, do_search.
  destruct (task !! "query") as [q|]; simpl; [|reflexivity].
  destruct (ddgs_text q 5 (world x)) as [[e | hits] w']; reflexivity.
Qed.

Lemma WritingAgent_eq (task : gmap string value) (x : Ext) :
  WritingAgent_process_task task x =
    match task !! "topic" with
    | None => (Raised (KeyError (VStr "topic")), x)
    | Some topic =>
        match task !! "research_results" with
        | None => (Raised (KeyError (VStr "research_results")), x)
        | Some research_results =>
            post_outcome azure_url azure_headers
              (writing_json (writing_prompt topic research_results))
              chat_content "blog_post" x
        end
    end.
Proof.
  unfold WritingAgent_process_task, bind, subscript, do_post, post_outcome.
  destruct (task !! "topic") as [tp|]; simpl; [|reflexivity].
  destruct (task !! "research_results") as [rr|]; simpl; [|reflexivity].
  destruct (session_post _ _ _ _) as [[e | body] w']; simpl; [reflexivity|].
  destruct (chat_content body); reflexivity.
Qed.

Lemma EditingAgent_eq (task : gmap string value) (x : Ext) :
  EditingAgent_process_task task x =
    match task !! "blog_post" with
    | None => (Raised (KeyError (VStr "blog_post")), x)
    | Some blog_post =>
        post_outcome anthropic_url anthropic_headers
          (editing_json (editing_prompt blog_post))
          message_text "edited_post" x
    end.
Proof.
  unfold EditingAgent_process_task, bind, subscript, do_post, post_outcome.
  destruct (task !! "blog_post") as [bp|]; simpl; [|reflexivity].
  destruct (session_post _ _ _ _) as [[e | body] w']; simpl; [reflexivity|].
  destruct (message_text body); reflexivity.
Qed.

Lemma SEOAgent_eq (task : gmap string value) (x : Ext) :
  SEOAgent_process_task task x =
    match task !! "edited_post" with
    | None => (Raised (KeyError (VStr "edited_post")), x)
    | Some edited_post =>
        post_outcome azure_url azure_headers
          (seo_json (seo_prompt edited_post))
          chat_content "seo_metadata" x
    end.
Proof.
  unfold SEOAgent_process_task, bind, subscript, do_post, post_outcome.
  destruct (task !! "edited_post") as [ep|]; simpl; [|reflexivity].
  destruct (session_post _ _ _ _) as [[e | body] w']; simpl; [reflexivity|].
  destruct (chat_content body); reflexivity.
Qed.

Lemma post_outcome_produces (url : string) (headers : list (string * value))
    (json : value) (extract : value -> exn + value) (key : string)
    (x x' : Ext) (r : gmap string value) :
  post_outcome url headers json extract key x = (Returned r, x') ->
  exists v : value, r = {[ key := v ]}.
Proof.
  unfold post_outcome.
  destruct (session_post _ _ _ _) as [[e | body] w']; [discriminate|].
  destruct (extract body) as [e | v]; [discriminate|].
  intros [= <- _]. eauto.
Qed.

Lemma ResearchAgent_produces (n : string) :
  produces (ResearchAgent n) "research_results".
Proof.
  intros task x x' r. simpl. rewrite ResearchAgent_eq.
  destruct (task !! "query") as [q|]; [|discriminate].
  destruct (ddgs_text q 5 (world x)) as [[e | hits] w']; [discriminate|].
  intros [= <- _]. eauto.
Qed.

Lemma WritingAgent_produces (n : string) : produces (WritingAgent n) "blog_post".
Proof.
  intros task x x' r. simpl. rewrite WritingAgent_eq.
  destruct (task !! "topic"); [|discriminate].
  destruct (task !! "research_results"); [|discriminate].
  apply post_outcome_produces.
Qed.

Lemma EditingAgent_produces (n : string) :
  produces (EditingAgent n) "edited_post".
Proof.
  intros task x x' r. simpl. rewrite EditingAgent_eq.
  destruct (task !! "blog_post"); [|discriminate].
  apply post_outcome_produces.
Qed.

Lemma SEOAgent_produces (n : string) : produces (SEOAgent n) "seo_metadata".
Proof.
  intros task x x' r. simpl. rewrite SEOAgent_eq.
  destruct (task !! "edited_post"); [|discriminate].
  apply post_outcome_produces.
Qed.

Lemma EditingAgent_post_fails (task : gmap string value) (v : value)
    (x : Ext) (e : exn) (w' : W) :
  task !! "blog_post" = Some v ->
  session_post anthropic_url anthropic_headers
    (editing_json (editing_prompt v)) (world x) = (inl e, w') ->
  EditingAgent_process_task task x
  = (Raised e,
     mkExt w' (calls x ++ [PostCall anthropic_url anthropic_headers
                             (editing_json (editing_prompt v))])).
Proof.
  intros Hv Hpost.
  unfold EditingAgent_process_task, bind, subscript, do_post.
  rewrite Hv. simpl. rewrite Hpost. reflexivity.
Qed.

Lemma post_outcome_ok (url : string) (headers : list (string * value))
    (json : value) (extract : value -> exn + value) (key : string) (x : Ext)
    (body v : value) (w' : W) :
  session_post url headers json (world x) = (inr body, w') ->
  extract body = inr v ->
  post_outcome url headers json extract key x
  = (Returned {[ key := v ]}, sent x w' (PostCall url headers json)).
Proof. unfold post_outcome. intros -> ->. reflexivity. Qed.

Lemma init_agents_research :
  init_agents !! "research" = Some (ResearchAgent "Research").
Proof. reflexivity. Qed.

Lemma init_agents_writing :
  init_agents !! "writing" = Some (WritingAgent "Writing").
Proof. reflexivity. Qed.

Lemma init_agents_editing :
  init_agents !! "editing" = Some (EditingAgent "Editing").
Proof. reflexivity. Qed.

Lemma init_agents_seo : init_agents !! "seo" = Some (SEOAgent "SEO").
Proof. reflexivity. Qed.

(** ** What the agents ask of a task *)


(** ** Properties of the pipeline driver *)

(** C7. When the key a stage needs is missing from [self.results] at the
    moment the stage would build its task, [run_pipeline] raises the
    [KeyError] of that read (the code's form of the spec's
    PipelineStateError / MissingKeyError) and stops in the very state the
    previous stage left: no task is built or queued and no agent is
    called. *)
Theorem missing_prerequisite_aborts (topic : string) (st : state) :
  (forall st1 : state,
     stage_research topic st = (Returned tt, st1) ->
     results st1 !! "research_results" = None ->
     run_pipeline topic st = (Raised (KeyError (VStr "research_results")), st1))
  /\ (forall st1 st2 : state,
        stage_research topic st = (Returned tt, st1) ->
        stage_writing topic st1 = (Returned tt, st2) ->
        results st2 !! "blog_post" = None ->
        run_pipeline topic st = (Raised (KeyError (VStr "blog_post")), st2))
  /\ (forall st1 st2 st3 : state,
        stage_research topic st = (Returned tt, st1) ->
        stage_writing topic st1 = (Returned tt, st2) ->
        stage_editing st2 = (Returned tt, st3) ->
        results st3 !! "edited_post" = None ->
        run_pipeline topic st = (Raised (KeyError (VStr "edited_post")), st3)).
Proof.
  unfold run_pipeline. repeat split.
  - intros st1 H1 Hnone.
    rewrite (bind_returned _ _ _ _ _ H1). apply bind_raised.
    rewrite stage_writing_eq, Hnone. reflexivity.
  - intros st1 st2 H1 H2 Hnone.
    rewrite (bind_returned _ _ _ _ _ H1), (bind_returned _ _ _ _ _ H2).
    apply bind_raised. rewrite stage_editing_eq, Hnone. reflexivity.
  - intros st1 st2 st3 H1 H2 H3 Hnone.
    rewrite (bind_returned _ _ _ _ _ H1), (bind_returned _ _ _ _ _ H2),
      (bind_returned _ _ _ _ _ H3).
    apply bind_raised. rewrite stage_seo_eq, Hnone. reflexivity.
Qed.

(** Run the stage of [task], routed to the agent [a] registered as [n]. *)
Ltac run_stage task n a Ha :=
  erewrite (stage_known _ task n a); [ | reflexivity | reflexivity | exact Ha ].

(** The trace of a run up to the failure of the agent of a stage. *)
Ltac trace_up_to :=
  repeat (rewrite ?stage_failed_trace, ?staged_trace, <- ?app_assoc; simpl);
  reflexivity.

(** C3. An exception raised by the agent of any stage is the outcome of
    [run_pipeline]: the run stops there, returns no artifact, and the
    agents of the later stages are not called.  In particular, when the
    request of [EditingAgent] fails, that request is the last one sent:
    the SEO agent is never invoked. *)
Theorem agent_failure_aborts_run (topic : string) (st : state) (e : exn) :
  q_items (task_queue st) = [] ->
  (forall (a : Agent) (x' : Ext),
     agents st !! "research" = Some a ->
     process_task a (research_task topic) (ext st) = (Raised e, x') ->
     exists (st' : state) (tl : list event),
       run_pipeline topic st = (Raised e, st')
       /\ ext st' = x'
       /\ trace st' = trace st ++ tl
       /\ invoked_keys tl = ["research"])
  /\ (forall (st1 : state) (v : value) (a : Agent) (x' : Ext),
        stage_research topic st = (Returned tt, st1) ->
        results st1 !! "research_results" = Some v ->
        agents st !! "writing" = Some a ->
        process_task a (writing_task topic v) (ext st1) = (Raised e, x') ->
        exists (st' : state) (tl : list event),
          run_pipeline topic st = (Raised e, st')
          /\ ext st' = x'
          /\ trace st' = trace st ++ tl
          /\ invoked_keys tl = ["research"; "writing"])
  /\ (forall (st1 st2 : state) (v : value) (a : Agent) (x' : Ext),
        stage_research topic st = (Returned tt, st1) ->
        stage_writing topic st1 = (Returned tt, st2) ->
        results st2 !! "blog_post" = Some v ->
        agents st !! "editing" = Some a ->
        process_task a (editing_task v) (ext st2) = (Raised e, x') ->
        exists (st' : state) (tl : list event),
          run_pipeline topic st = (Raised e, st')
          /\ ext st' = x'
          /\ trace st' = trace st ++ tl
          /\ invoked_keys tl = ["research"; "writing"; "editing"])
  /\ (forall (st1 st2 st3 : state) (v : value) (a : Agent) (x' : Ext),
        stage_research topic st = (Returned tt, st1) ->
        stage_writing topic st1 = (Returned tt, st2) ->
        stage_editing st2 = (Returned tt, st3) ->
        results st3 !! "edited_post" = Some v ->
        agents st !! "seo" = Some a ->
        process_task a (seo_task v) (ext st3) = (Raised e, x') ->
        exists (st' : state) (tl : list event),
          run_pipeline topic st = (Raised e, st')
          /\ ext st' = x'
          /\ trace st' = trace st ++ tl
          /\ invoked_keys tl = ["research"; "writing"; "editing"; "seo"])
  /\ (forall (st1 st2 : state) (v : value) (nm : string) (w' : W),
        stage_research topic st = (Returned tt, st1) ->
        stage_writing topic st1 = (Returned tt, st2) ->
        results st2 !! "blog_post" = Some v ->
        agents st !! "editing" = Some (EditingAgent nm) ->
        session_post anthropic_url anthropic_headers
          (editing_json (editing_prompt v)) (world (ext st2)) = (inl e, w') ->
        exists (st' : state) (tl : list event),
          run_pipeline topic st = (Raised e, st')
          /\ world (ext st') = w'
          /\ calls (ext st')
             = calls (ext st2)
               ++ [PostCall anthropic_url anthropic_headers
                     (editing_json (editing_prompt v))]
          /\ trace st' = trace st ++ tl
          /\ invoked_keys tl = ["research"; "writing"; "editing"]).
Proof.
  intros E.
  assert (Hediting :
    forall (st1 st2 : state) (v : value) (a : Agent) (x' : Ext),
      stage_research topic st = (Returned tt, st1) ->
      stage_writing topic st1 = (Returned tt, st2) ->
      results st2 !! "blog_post" = Some v ->
      agents st !! "editing" = Some a ->
      process_task a (editing_task v) (ext st2) = (Raised e, x') ->
      exists (st' : state) (tl : list event),
        run_pipeline topic st = (Raised e, st')
        /\ ext st' = x'
        /\ trace st' = trace st ++ tl
        /\ invoked_keys tl = ["research"; "writing"; "editing"]).
  { intros st1 st2 v a x' H1 H2 Hv Ha Hp.
    destruct (stage_research_inv _ _ _ E H1) as (a1 & r1 & x1 & _ & _ & ->).
    destruct (stage_writing_inv _ _ _ (staged_queue_empty _ _ _ _ _) H2)
      as (v2 & a2 & r2 & x2 & _ & _ & _ & ->).
    eexists. eexists. split; [|split; [|split]].
    - unfold run_pipeline.
      rewrite (bind_returned _ _ _ _ _ H1), (bind_returned _ _ _ _ _ H2).
      apply bind_raised. rewrite stage_editing_eq, Hv.
      run_stage (editing_task v) "editing" a Ha. rewrite Hp.
      reflexivity.
    - reflexivity.
    - trace_up_to.
    - reflexivity. }
  repeat split.
  - intros a x' Ha Hp. eexists. eexists. split; [|split; [|split]].
    + unfold run_pipeline. apply bind_raised. unfold stage_research.
      rewrite (stage_known _ (research_task topic) "research" a E eq_refl Ha), Hp.
      reflexivity.
    + reflexivity.
    + trace_up_to.
    + reflexivity.
  - intros st1 v a x' H1 Hv Ha Hp.
    destruct (stage_research_inv _ _ _ E H1) as (a1 & r1 & x1 & _ & _ & ->).
    eexists. eexists. split; [|split; [|split]].
    + unfold run_pipeline. rewrite (bind_returned _ _ _ _ _ H1).
      apply bind_raised. rewrite stage_writing_eq, Hv.
      run_stage (writing_task topic v) "writing" a Ha. rewrite Hp.
      reflexivity.
    + reflexivity.
    + trace_up_to.
    + reflexivity.
  - exact Hediting.
  - intros st1 st2 st3 v a x' H1 H2 H3 Hv Ha Hp.
    destruct (stage_research_inv _ _ _ E H1) as (a1 & r1 & x1 & _ & _ & ->).
    destruct (stage_writing_inv _ _ _ (staged_queue_empty _ _ _ _ _) H2)
      as (v2 & a2 & r2 & x2 & _ & _ & _ & ->).
    destruct (stage_editing_inv _ _ (staged_queue_empty _ _ _ _ _) H3)
      as (v3 & a3 & r3 & x3 & _ & _ & _ & ->).
    eexists. eexists. split; [|split; [|split]].
    + unfold run_pipeline.
      rewrite (bind_returned _ _ _ _ _ H1), (bind_returned _ _ _ _ _ H2),
        (bind_returned _ _ _ _ _ H3).
      apply bind_raised. rewrite stage_seo_eq, Hv.
      run_stage (seo_task v) "seo" a Ha. rewrite Hp.
      reflexivity.
    + reflexivity.
    + trace_up_to.
    + reflexivity.
  - intros st1 st2 v nm w' H1 H2 Hv Ha Hpost.
    pose proof (EditingAgent_post_fails (editing_task v) v (ext st2) e w'
                  eq_refl Hpost) as Hp.
    destruct (Hediting st1 st2 v (EditingAgent nm) _ H1 H2 Hv Ha Hp)
      as (st' & tl & Hrun & Hext & Htr & Hkeys).
    exists st', tl. rewrite Hext. simpl. auto.
Qed.


(** ** A completed run *)

Lemma completed_trace (topic : string) (st : state)
    (v1 v2 v3 v4 : value) (x1 x2 x3 x4 : Ext) :
  trace (completed topic st v1 v2 v3 v4 x1 x2 x3 x4)
  = trace st
    ++ stage_events (research_task topic) "research"
         {[ "research_results" := v1 ]}
    ++ stage_events (writing_task topic v1) "writing" {[ "blog_post" := v2 ]}
    ++ stage_events (editing_task v2) "editing" {[ "edited_post" := v3 ]}
    ++ stage_events (seo_task v3) "seo" {[ "seo_metadata" := v4 ]}.
Proof.
  unfold completed. rewrite !staged_trace. unfold stage_events.
  rewrite <- !app_assoc. reflexivity.
Qed.

Lemma completed_results (topic : string) (st : state)
    (v1 v2 v3 v4 : value) (x1 x2 x3 x4 : Ext) :
  results (completed topic st v1 v2 v3 v4 x1 x2 x3 x4)
  = {[ "seo_metadata" := v4 ]}
    ∪ ({[ "edited_post" := v3 ]}
       ∪ ({[ "blog_post" := v2 ]}
          ∪ ({[ "research_results" := v1 ]} ∪ results st))).
Proof. reflexivity. Qed.

(** A run that returns, with agents that each produce their one key, went
    through the four stages in order, each stage reading what the one
    before wrote. *)
Lemma run_pipeline_returned_inv (topic : string) (st st' : state)
    (art : gmap string value) (a1 a2 a3 a4 : Agent) :
  q_items (task_queue st) = [] ->
  agents st !! "research" = Some a1 -> produces a1 "research_results" ->
  agents st !! "writing" = Some a2 -> produces a2 "blog_post" ->
  agents st !! "editing" = Some a3 -> produces a3 "edited_post" ->
  agents st !! "seo" = Some a4 -> produces a4 "seo_metadata" ->
  run_pipeline topic st = (Returned art, st') ->
  exists (v1 v2 v3 v4 : value) (x1 x2 x3 x4 : Ext),
    process_task a1 (research_task topic) (ext st)
    = (Returned {[ "research_results" := v1 ]}, x1)
    /\ process_task a2 (writing_task topic v1) x1
       = (Returned {[ "blog_post" := v2 ]}, x2)
    /\ process_task a3 (editing_task v2) x2
       = (Returned {[ "edited_post" := v3 ]}, x3)
    /\ process_task a4 (seo_task v3) x3
       = (Returned {[ "seo_metadata" := v4 ]}, x4)
    /\ st' = completed topic st v1 v2 v3 v4 x1 x2 x3 x4
    /\ art = {[ "blog_post" := v3; "seo_metadata" := v4 ]}.
Proof.
  intros E Ha1 P1 Ha2 P2 Ha3 P3 Ha4 P4 Hrun. unfold run_pipeline in Hrun.
  apply bind_returned_inv in Hrun as ([] & s1 & H1 & Hrun).
  apply bind_returned_inv in Hrun as ([] & s2 & H2 & Hrun).
  apply bind_returned_inv in Hrun as ([] & s3 & H3 & Hrun).
  apply bind_returned_inv in Hrun as ([] & s4 & H4 & Hrun).
  destruct (stage_research_inv _ _ _ E H1) as (b1 & r1 & x1 & Hb1 & Hp1 & ->).
  rewrite Ha1 in Hb1. injection Hb1 as <-.
  destruct (P1 _ _ _ _ Hp1) as [v1 ->].
  destruct (stage_writing_inv _ _ _ (staged_queue_empty _ _ _ _ _) H2)
    as (u1 & b2 & r2 & x2 & Hu1 & Hb2 & Hp2 & ->).
  rewrite staged_results in Hu1.
  rewrite (lookup_union_Some_l _ _ _ v1) in Hu1 by apply lookup_singleton_eq.
  injection Hu1 as <-.
  rewrite staged_agents, Ha2 in Hb2. injection Hb2 as <-.
  rewrite staged_ext in Hp2.
  destruct (P2 _ _ _ _ Hp2) as [v2 ->].
  destruct (stage_editing_inv _ _ (staged_queue_empty _ _ _ _ _) H3)
    as (u2 & b3 & r3 & x3 & Hu2 & Hb3 & Hp3 & ->).
  rewrite staged_results in Hu2.
  rewrite (lookup_union_Some_l _ _ _ v2) in Hu2 by apply lookup_singleton_eq.
  injection Hu2 as <-.
  rewrite !staged_agents, Ha3 in Hb3. injection Hb3 as <-.
  rewrite staged_ext in Hp3.
  destruct (P3 _ _ _ _ Hp3) as [v3 ->].
  destruct (stage_seo_inv _ _ (staged_queue_empty _ _ _ _ _) H4)
    as (u3 & b4 & r4 & x4 & Hu3 & Hb4 & Hp4 & ->).
  rewrite staged_results in Hu3.
  rewrite (lookup_union_Some_l _ _ _ v3) in Hu3 by apply lookup_singleton_eq.
  injection Hu3 as <-.
  rewrite !staged_agents, Ha4 in Hb4. injection Hb4 as <-.
  rewrite staged_ext in Hp4.
  destruct (P4 _ _ _ _ Hp4) as [v4 ->].
  exists v1, v2, v3, v4, x1, x2, x3, x4.
  do 4 (split; [assumption|]).
  rewrite final_artifact_eq, !staged_results in Hrun.
  rewrite (lookup_union_r _ _ "edited_post") in Hrun
    by (apply lookup_singleton_ne; discriminate).
  rewrite (lookup_union_Some_l _ _ "edited_post" v3) in Hrun
    by apply lookup_singleton_eq.
  rewrite (lookup_union_Some_l _ _ "seo_metadata" v4) in Hrun
    by apply lookup_singleton_eq.
  injection Hrun as <- <-. split; reflexivity.
Qed.

Lemma written_keys_app (tr1 tr2 : list event) :
  written_keys (tr1 ++ tr2) = written_keys tr1 ++ written_keys tr2.
Proof. unfold written_keys. apply bind_app. Qed.

Lemma written_keys_stage (task : gmap string value) (n key : string)
    (v : value) :
  written_keys (stage_events task n {[ key := v ]}) = [key].
Proof.
  unfold written_keys, stage_events, dispatch_events. simpl.
  rewrite map_to_list_singleton. reflexivity.
Qed.

(** C2. After a run of the registered agents that returns, started on an
    empty queue with no foreign key in [results], [results] holds exactly
    the four keys, and the updates of the run wrote
    ['research_results'], ['blog_post'], ['edited_post'] and
    ['seo_metadata'], in this order, each once. *)
Theorem results_written_once (topic : string) (st st' : state)
    (art : gmap string value) :
  agents st = init_agents ->
  q_items (task_queue st) = [] ->
  dom (results st) ⊆ result_keys ->
  run_pipeline topic st = (Returned art, st') ->
  dom (results st') = result_keys
  /\ exists tl : list event,
       trace st' = trace st ++ tl
       /\ written_keys tl
          = ["research_results"; "blog_post"; "edited_post"; "seo_metadata"].
Proof.
  intros Hag E Hdom Hrun.
  destruct (run_pipeline_returned_inv topic st st' art
              (ResearchAgent "Research") (WritingAgent "Writing")
              (EditingAgent "Editing") (SEOAgent "SEO") E)
    as (v1 & v2 & v3 & v4 & x1 & x2 & x3 & x4 & _ & _ & _ & _ & -> & _);
    try (rewrite Hag; reflexivity);
    auto using ResearchAgent_produces, WritingAgent_produces,
      EditingAgent_produces, SEOAgent_produces.
  split.
  - rewrite completed_results, !dom_union_L, !dom_singleton_L.
    unfold result_keys in *. apply set_eq. intros k. specialize (Hdom k).
    set_unfold. tauto.
  - eexists. split; [apply completed_trace|].
    rewrite !written_keys_app, !written_keys_stage. reflexivity.
Qed.

(** ** A run whose four requests succeed *)

(** C9, as the code has it. When the search answers and each of the three
    POSTs answers with a body of the expected shape, [run_pipeline]
    returns, and returns exactly the mapping of ['blog_post'] to the text
    found in the body of the editing request and of ['seo_metadata'] to
    the text found in the body of the SEO request, whatever these are:
    the code does not look at them, so an empty text is returned as it
    came. *)
Theorem run_pipeline_returns_provider_texts (topic : string) (st : state)
    (hits : list value) (body2 body3 body4 v2 v3 v4 : value)
    (w1 w2 w3 w4 : W) :
  agents st = init_agents ->
  q_items (task_queue st) = [] ->
  ddgs_text (VStr topic) 5 (world (ext st)) = (inr hits, w1) ->
  session_post azure_url azure_headers
    (writing_json (writing_prompt (VStr topic) (VList hits))) w1
  = (inr body2, w2) ->
  chat_content body2 = inr v2 ->
  session_post anthropic_url anthropic_headers
    (editing_json (editing_prompt v2)) w2
  = (inr body3, w3) ->
  message_text body3 = inr v3 ->
  session_post azure_url azure_headers (seo_json (seo_prompt v3)) w3
  = (inr body4, w4) ->
  chat_content body4 = inr v4 ->
  exists st' : state,
    run_pipeline topic st
    = (Returned {[ "blog_post" := v3; "seo_metadata" := v4 ]}, st')
    /\ world (ext st') = w4.
Proof.
  intros Hag E Hs Hp2 Hc2 Hp3 Hc3 Hp4 Hc4.
  assert (H1 : process_task (ResearchAgent "Research") (research_task topic)
                 (ext st)
               = (Returned {[ "research_results" := VList hits ]},
                  sent (ext st) w1 (SearchCall (VStr topic) 5))).
  { simpl. rewrite ResearchAgent_eq.
    change (research_task topic !! "query") with (Some (VStr topic)).
    cbv beta iota. rewrite Hs. reflexivity. }
  set (x1 := sent (ext st) w1 (SearchCall (VStr topic) 5)) in *.
  assert (H2 : process_task (WritingAgent "Writing")
                 (writing_task topic (VList hits)) x1
               = (Returned {[ "blog_post" := v2 ]},
                  sent x1 w2
                    (PostCall azure_url azure_headers
                       (writing_json
                          (writing_prompt (VStr topic) (VList hits)))))).
  { simpl. rewrite WritingAgent_eq.
    change (writing_task topic (VList hits) !! "topic")
      with (Some (VStr topic)).
    change (writing_task topic (VList hits) !! "research_results")
      with (Some (VList hits)).
    cbv beta iota. eapply post_outcome_ok; eassumption. }
  set (x2 := sent x1 w2 _) in *.
  assert (H3 : process_task (EditingAgent "Editing") (editing_task v2) x2
               = (Returned {[ "edited_post" := v3 ]},
                  sent x2 w3
                    (PostCall anthropic_url anthropic_headers
                       (editing_json (editing_prompt v2))))).
  { simpl. rewrite EditingAgent_eq.
    change (editing_task v2 !! "blog_post") with (Some v2).
    cbv beta iota. eapply post_outcome_ok; eassumption. }
  set (x3 := sent x2 w3 _) in *.
  assert (H4 : process_task (SEOAgent "SEO") (seo_task v3) x3
               = (Returned {[ "seo_metadata" := v4 ]},
                  sent x3 w4
                    (PostCall azure_url azure_headers
                       (seo_json (seo_prompt v3))))).
  { simpl. rewrite SEOAgent_eq.
    change (seo_task v3 !! "edited_post") with (Some v3).
    cbv beta iota. eapply post_outcome_ok; eassumption. }
  set (x4 := sent x3 w4 _) in *.
  exists (completed topic st (VList hits) v2 v3 v4 x1 x2 x3 x4).
  split; [|reflexivity].
  unfold run_pipeline, completed.
  erewrite bind_returned; cycle 1.
  { unfold stage_research.
    rewrite (stage_known _ (research_task topic) "research"
               (ResearchAgent "Research") E eq_refl)
      by (rewrite Hag; reflexivity).
    rewrite H1. reflexivity. }
  erewrite bind_returned; cycle 1.
  { rewrite stage_writing_eq, staged_results.
    rewrite (lookup_union_Some_l _ _ _ (VList hits))
      by apply lookup_singleton_eq.
    run_stage (writing_task topic (VList hits)) "writing"
      (WritingAgent "Writing") (eq_trans (f_equal (.!! "writing") Hag)
                                  init_agents_writing).
    rewrite staged_ext, H2. reflexivity. }
  erewrite bind_returned; cycle 1.
  { rewrite stage_editing_eq, staged_results.
    rewrite (lookup_union_Some_l _ _ _ v2) by apply lookup_singleton_eq.
    run_stage (editing_task v2) "editing"
      (EditingAgent "Editing") (eq_trans (f_equal (.!! "editing") Hag)
                                  init_agents_editing).
    rewrite staged_ext, H3. reflexivity. }
  erewrite bind_returned; cycle 1.
  { rewrite stage_seo_eq, staged_results.
    rewrite (lookup_union_Some_l _ _ _ v3) by apply lookup_singleton_eq.
    run_stage (seo_task v3) "seo"
      (SEOAgent "SEO") (eq_trans (f_equal (.!! "seo") Hag) init_agents_seo).
    rewrite staged_ext, H4. reflexivity. }
  rewrite final_artifact_eq, !staged_results.
  rewrite (lookup_union_r _ _ "edited_post")
    by (apply lookup_singleton_ne; discriminate).
  rewrite (lookup_union_Some_l _ _ "edited_post" v3)
    by apply lookup_singleton_eq.
  rewrite (lookup_union_Some_l _ _ "seo_metadata" v4)
    by apply lookup_singleton_eq.
  reflexivity.
Qed.

(** A run of the registered agents that returns: its four stages, and
    the artifact built from what the last two stored. *)
Lemma completed_run_artifact (topic : string) (st st' : state)
    (art : gmap string value) :
  agents st = init_agents ->
  q_items (task_queue st) = [] ->
  run_pipeline topic st = (Returned art, st') ->
  exists v_research v_draft v_edited v_seo : value,
    trace st'
    = trace st
      ++ stage_events (research_task topic) "research"
           {[ "research_results" := v_research ]}
      ++ stage_events (writing_task topic v_research) "writing"
           {[ "blog_post" := v_draft ]}
      ++ stage_events (editing_task v_draft) "editing"
           {[ "edited_post" := v_edited ]}
      ++ stage_events (seo_task v_edited) "seo"
           {[ "seo_metadata" := v_seo ]}
    /\ results st' !! "edited_post" = Some v_edited
    /\ results st' !! "seo_metadata" = Some v_seo
    /\ art = {[ "blog_post" := v_edited; "seo_metadata" := v_seo ]}.
Proof.
  intros Hag E Hrun.
  destruct (run_pipeline_returned_inv topic st st' art
              (ResearchAgent "Research") (WritingAgent "Writing")
              (EditingAgent "Editing") (SEOAgent "SEO") E)
    as (v1 & v2 & v3 & v4 & x1 & x2 & x3 & x4 & _ & _ & _ & _ & -> & ->);
    try (rewrite Hag; reflexivity);
    auto using ResearchAgent_produces, WritingAgent_produces,
      EditingAgent_produces, SEOAgent_produces.
  exists v1, v2, v3, v4. split; [apply completed_trace|].
  rewrite completed_results. repeat split.
  - rewrite lookup_union_r by (apply lookup_singleton_ne; discriminate).
    apply lookup_union_Some_l, lookup_singleton_eq.
  - apply lookup_union_Some_l, lookup_singleton_eq.
Qed.

End Properties.

(** * Further properties of the code *)

Section Further.

Context {W : Type} {P : Providers W}.

Local Abbreviation Ext := (Ext W) (only parsing).
Local Abbreviation Agent := (Agent W) (only parsing).
Local Abbreviation state := (state W) (only parsing).

(** ** The dispatch loop: selectors, failures, the counter of the queue *)

(** A dispatch that stops at the lookup of the agent: the exception is
    the outcome of [process_tasks], in the state [get] left. *)
Lemma lookup_raises (st : state) (task : gmap string value)
    (rest : list (gmap string value)) (e : exn) :
  q_items (task_queue st) = task :: rest ->
  process_one st = (Raised e, dequeued st task rest) ->
  process_tasks st = (Raised e, dequeued st task rest).
Proof.
  intros E H1. rewrite process_tasks_unfold. unfold Queue_empty. rewrite E.
  apply bind_raised. exact H1.
Qed.

(** X2. [self.agents[task['agent']]] on a task whose selector is not the
    name of an agent: a task without ['agent'] raises [KeyError('agent')];
    a selector that is not a string raises [KeyError] of that value when
    it is hashable ([None], a number) and [TypeError] when it is a list or
    a dictionary.  In each case the task has been taken off the queue, no
    agent was called, and [results] and the world are as they were. *)
Theorem bad_agent_selector_raises (st : state) (task : gmap string value)
    (rest : list (gmap string value)) :
  q_items (task_queue st) = task :: rest ->
  (task !! "agent" = None ->
   process_tasks st
   = (Raised (KeyError (VStr "agent")), dequeued st task rest))
  /\ (forall key : value,
        task !! "agent" = Some key ->
        (forall n : string, key <> VStr n) ->
        hashable key = true ->
        process_tasks st = (Raised (KeyError key), dequeued st task rest))
  /\ (forall key : value,
        task !! "agent" = Some key ->
        hashable key = false ->
        process_tasks st = (Raised TypeError, dequeued st task rest)).
Proof.
  intros E. repeat split.
  - intros Hkey. apply (lookup_raises _ _ _ _ E).
    rewrite (process_one_eq _ _ _ E), Hkey. reflexivity.
  - intros key Hkey Hstr Hhash. apply (lookup_raises _ _ _ _ E).
    rewrite (process_one_eq _ _ _ E), Hkey. unfold agents_lookup.
    destruct key; simpl in *; try reflexivity; try discriminate.
    exfalso. eapply Hstr. reflexivity.
  - intros key Hkey Hhash. apply (lookup_raises _ _ _ _ E).
    rewrite (process_one_eq _ _ _ E), Hkey. unfold agents_lookup.
    destruct key; simpl in *; try reflexivity; discriminate.
Qed.

(** X3. An agent of the base class registered under [n]: dispatching a
    task to it raises [NotImplementedError]; the world and [results] are
    untouched and the tasks behind it stay queued. *)
Theorem base_agent_is_not_implemented (st : state)
    (task : gmap string value) (rest : list (gmap string value))
    (n nm : string) :
  q_items (task_queue st) = task :: rest ->
  task !! "agent" = Some (VStr n) ->
  agents st !! n = Some (Agent_base nm) ->
  process_tasks st
  = (Raised NotImplementedError, invoked st task rest n (ext st)).
Proof.
  intros E Hkey Ha.
  apply (dispatch_raises _ _ _ _ (Agent_base nm) _ _ E Hkey Ha).
  reflexivity.
Qed.

(** X4. When [process_tasks] raises on a queue built by [put], [get]
    and [task_done], the queue held [done ++ task :: rest].  The tasks of
    [done] were dispatched in order, each to the agent it names, and what
    these calls returned, the world threaded from one to the next
    ([dispatches]), is what [results] has merged.  [task] is the one that
    failed: either at the lookup of its agent, in the world the last call
    left, or inside its agent, whose call in that world raised the
    exception.  It is gone from the queue (it is not put back); the tasks
    of [rest] are still queued, in order, and [task_done] was called for
    the tasks of [done] only. *)
Theorem failed_dispatch_keeps_rest_queued (st st' : state) (e : exn) :
  Queue_wf (task_queue st) ->
  process_tasks st = (Raised e, st') ->
  exists (done : list (gmap string value))
         (steps : list (string * gmap string value))
         (task : gmap string value) (rest : list (gmap string value))
         (x : Ext),
    q_items (task_queue st) = done ++ task :: rest
    /\ Forall2 (routed (agents st)) done steps
    /\ dispatches (agents st) done steps (ext st) x
    /\ q_items (task_queue st') = rest
    /\ results st' = merge_all steps (results st)
    /\ unfinished_tasks (task_queue st')
       = (unfinished_tasks (task_queue st) - length done)%nat
    /\ ((trace st' = trace st ++ drain_events done steps ++ [EvGet task]
         /\ ext st' = x)
        \/ exists (n : string) (a : Agent),
             trace st'
             = trace st ++ drain_events done steps
               ++ [EvGet task; EvInvoke n task]
             /\ task !! "agent" = Some (VStr n)
             /\ agents st !! n = Some a
             /\ process_task a task x = (Raised e, ext st')).
Proof.
  remember (q_items (task_queue st)) as items eqn:E.
  revert st E. induction items as [|task rest IH]; intros st E Hwf Hrun.
  - rewrite process_tasks_unfold in Hrun. unfold Queue_empty in Hrun.
    rewrite <- E in Hrun. discriminate.
  - symmetry in E. rewrite process_tasks_unfold in Hrun.
    unfold Queue_empty in Hrun. rewrite E in Hrun. unfold bind in Hrun.
    rewrite (process_one_eq _ _ _ E) in Hrun.
    assert (Hstop : dequeued st task rest = st' ->
              exists done steps task0 rest0 x,
                task :: rest = done ++ task0 :: rest0
                /\ Forall2 (routed (agents st)) done steps
                /\ dispatches (agents st) done steps (ext st) x
                /\ q_items (task_queue st') = rest0
                /\ results st' = merge_all steps (results st)
                /\ unfinished_tasks (task_queue st')
                   = (unfinished_tasks (task_queue st) - length done)%nat
                /\ ((trace st' = trace st ++ drain_events done steps
                                   ++ [EvGet task0]
                     /\ ext st' = x)
                    \/ exists (n : string) (a : Agent),
                         trace st'
                         = trace st ++ drain_events done steps
                           ++ [EvGet task0; EvInvoke n task0]
                         /\ task0 !! "agent" = Some (VStr n)
                         /\ agents st !! n = Some a
                         /\ process_task a task0 x = (Raised e, ext st'))).
    { intros <-. exists [], [], task, rest, (ext st). simpl.
      split; [reflexivity|]. split; [constructor|]. split; [constructor|].
      split; [reflexivity|]. split; [reflexivity|].
      split; [rewrite Nat.sub_0_r; reflexivity|].
      left. split; reflexivity. }
    destruct (task !! "agent") as [key|] eqn:Hkey;
      [|injection Hrun as _ Hst; exact (Hstop Hst)].
    unfold agents_lookup in Hrun.
    destruct key as [ | b | z | n | l | d]; simpl in Hrun;
      try (injection Hrun as _ Hst; exact (Hstop Hst)).
    destruct (agents st !! n) as [a|] eqn:Ha; simpl in Hrun;
      [|injection Hrun as _ Hst; exact (Hstop Hst)].
    destruct (process_task a task (ext st)) as [[r | e' | ] x'] eqn:Hp;
      [ | | discriminate].
    + unfold Queue_wf in Hwf. rewrite E in Hwf. simpl in Hwf.
      destruct (unfinished_tasks (task_queue st)) as [|u] eqn:Hu; [lia|].
      destruct (IH (dispatched st task rest n r x') eq_refl)
        as (done & steps & task0 & rest0 & x & Hq & Hrouted & Hcalls
            & Hrest & Hres & Hunf & Htr); [ | exact Hrun | ].
      { unfold Queue_wf. simpl. rewrite Hu. simpl. lia. }
      exists (task :: done), ((n, r) :: steps), task0, rest0, x.
      simpl in Hq. rewrite Hq.
      split; [reflexivity|].
      split; [constructor; [split; simpl; eauto | exact Hrouted]|].
      split; [exact (dispatches_cons _ _ _ _ _ _ _ _ _ _ Hkey Ha Hp Hcalls)|].
      split; [exact Hrest|]. split; [exact Hres|].
      split; [rewrite Hunf; simpl; rewrite Hu; reflexivity|].
      simpl in Htr.
      destruct Htr as [[Htr Hx] | (n0 & a0 & Htr & Hk0 & Ha0 & Hp0)].
      * left. split; [|exact Hx].
        rewrite Htr. simpl. rewrite <- !app_assoc. reflexivity.
      * right. exists n0, a0. split; [|auto].
        rewrite Htr. simpl. rewrite <- !app_assoc. reflexivity.
    + injection Hrun as -> <-. exists [], [], task, rest, (ext st). simpl.
      split; [reflexivity|]. split; [constructor|]. split; [constructor|].
      split; [reflexivity|]. split; [reflexivity|].
      split; [rewrite Nat.sub_0_r; reflexivity|].
      right. exists n, a. auto.
Qed.

(** A loop that returns has emptied the queue and called [task_done] once
    per task. *)
Lemma process_tasks_returned_balance (st st' : state) :
  process_tasks st = (Returned tt, st') ->
  q_items (task_queue st') = []
  /\ unfinished_tasks (task_queue st)
     = (length (q_items (task_queue st))
        + unfinished_tasks (task_queue st'))%nat.
Proof.
  remember (q_items (task_queue st)) as items eqn:E.
  revert st E. induction items as [|task rest IH]; intros st E Hrun.
  - rewrite process_tasks_unfold in Hrun. unfold Queue_empty in Hrun.
    rewrite <- E in Hrun. injection Hrun as <-. auto.
  - symmetry in E. rewrite process_tasks_unfold in Hrun.
    unfold Queue_empty in Hrun. rewrite E in Hrun. unfold bind in Hrun.
    rewrite (process_one_eq _ _ _ E) in Hrun.
    destruct (task !! "agent") as [key|]; [|discriminate].
    unfold agents_lookup in Hrun.
    destruct key as [ | b | z | n | l | d]; simpl in Hrun; try discriminate.
    destruct (agents st !! n) as [a|]; simpl in Hrun; [|discriminate].
    destruct (process_task a task (ext st)) as [[r | e | ] x'];
      try discriminate.
    destruct (unfinished_tasks (task_queue st)) as [|u] eqn:Hu;
      [discriminate|].
    destruct (IH (dispatched st task rest n r x') eq_refl Hrun) as [H1 H2].
    split; [exact H1|]. simpl in H2. rewrite Hu in H2. simpl in H2.
    simpl. rewrite H2. reflexivity.
Qed.

(** X5. When [process_tasks] returns, [task_done] was called exactly once
    per queued task: the counter of unfinished tasks went down by the
    number of tasks that were queued (so it was at least that), and the
    queue is well formed again. *)
Theorem drained_queue_is_balanced (st st' : state) :
  process_tasks st = (Returned tt, st') ->
  unfinished_tasks (task_queue st)
  = (length (q_items (task_queue st))
     + unfinished_tasks (task_queue st'))%nat
  /\ Queue_wf (task_queue st').
Proof.
  intros Hrun. destruct (process_tasks_returned_balance _ _ Hrun) as [H1 H2].
  split; [exact H2|]. unfold Queue_wf. rewrite H1. simpl. lia.
Qed.

(** X6. Draining twice is draining once: after [process_tasks] returned,
    a second call returns at once and changes nothing. *)
Theorem process_tasks_twice (st st' : state) :
  process_tasks st = (Returned tt, st') ->
  (process_tasks ;; process_tasks) st = (Returned tt, st').
Proof.
  intros Hrun. rewrite (bind_returned _ _ _ _ _ Hrun).
  destruct (process_tasks_returned_balance _ _ Hrun) as [H1 _].
  rewrite process_tasks_unfold. unfold Queue_empty. rewrite H1. reflexivity.
Qed.

(** ** What the orchestrator keeps *)

Lemma evolves_refl (st : state) : evolves st st.
Proof. unfold evolves. auto. Qed.

Lemma evolves_trans (st1 st2 st3 : state) :
  evolves st1 st2 -> evolves st2 st3 -> evolves st1 st3.
Proof.
  intros (Ha & Hd & Hw) (Ha' & Hd' & Hw'). repeat split.
  - congruence.
  - etransitivity; eassumption.
  - auto.
Qed.

Lemma stable_bind {A B : Type} (m : M state A) (k : A -> M state B) :
  stable (W := W) m -> (forall a : A, stable (W := W) (k a)) ->
  stable (W := W) (bind m k).
Proof.
  intros Hm Hk st. unfold bind. specialize (Hm st).
  destruct (m st) as [[a | e | ] s1]; simpl in *; try exact Hm.
  eapply evolves_trans; [exact Hm | apply Hk].
Qed.

Lemma stable_add_task (task : gmap string value) :
  stable (W := W) (add_task task).
Proof.
  intros st. repeat split; simpl; auto.
  unfold Queue_wf. simpl. rewrite length_app. simpl. lia.
Qed.

Lemma stable_results_get (key : string) : stable (W := W) (results_get key).
Proof.
  intros st. unfold results_get, subscript.
  destruct (results st !! key); apply evolves_refl.
Qed.

Lemma evolves_dequeued (st : state) (task : gmap string value)
    (rest : list (gmap string value)) :
  q_items (task_queue st) = task :: rest ->
  evolves st (dequeued st task rest).
Proof.
  intros E. repeat split; simpl; auto.
  unfold Queue_wf. rewrite E. simpl. lia.
Qed.

Lemma evolves_invoked (st : state) (task : gmap string value)
    (rest : list (gmap string value)) (n : string) (x' : Ext) :
  q_items (task_queue st) = task :: rest ->
  evolves st (invoked st task rest n x').
Proof.
  intros E. repeat split; simpl; auto.
  unfold Queue_wf. rewrite E. simpl. lia.
Qed.

Lemma evolves_merged (st : state) (task : gmap string value)
    (rest : list (gmap string value)) (n : string) (r : gmap string value)
    (x' : Ext) :
  q_items (task_queue st) = task :: rest ->
  evolves st (merged st task rest n r x').
Proof.
  intros E. repeat split; simpl.
  - rewrite dom_union_L. apply union_subseteq_r.
  - unfold Queue_wf. rewrite E. simpl. lia.
Qed.

Lemma evolves_dispatched (st : state) (task : gmap string value)
    (rest : list (gmap string value)) (n : string) (r : gmap string value)
    (x' : Ext) :
  q_items (task_queue st) = task :: rest ->
  evolves st (dispatched st task rest n r x').
Proof.
  intros E. repeat split; simpl.
  - rewrite dom_union_L. apply union_subseteq_r.
  - unfold Queue_wf. rewrite E. simpl. lia.
Qed.

Lemma stable_process_one : stable (W := W) process_one.
Proof.
  intros st. destruct (q_items (task_queue st)) as [|task rest] eqn:E.
  - unfold process_one, bind, queue_get, Queue_get. rewrite E.
    apply evolves_refl.
  - rewrite (process_one_eq _ _ _ E). unfold agents_lookup.
    repeat case_match; simplify_eq; simpl;
      auto using evolves_dequeued, evolves_invoked, evolves_merged,
        evolves_dispatched.
Qed.

Lemma stable_drain (fuel : nat) : stable (W := W) (drain fuel).
Proof.
  induction fuel as [|fuel IH]; intros st; simpl;
    destruct (Queue_empty (task_queue st)); try apply evolves_refl.
  apply (stable_bind process_one (fun _ => drain fuel));
    [apply stable_process_one | intros _; exact IH].
Qed.

Lemma stable_process_tasks : stable (W := W) process_tasks.
Proof. intros st. apply stable_drain. Qed.

Lemma stable_stage (task : gmap string value) :
  stable (W := W) (add_task task ;; process_tasks).
Proof.
  apply stable_bind; [apply stable_add_task|].
  intros _. apply stable_process_tasks.
Qed.

Lemma stable_run_pipeline (topic : string) :
  stable (W := W) (run_pipeline topic).
Proof.
  apply stable_bind; [apply stable_stage|]. intros _.
  apply stable_bind.
  { apply stable_bind; [apply stable_results_get|].
    intros v. apply stable_stage. }
  intros _. apply stable_bind.
  { apply stable_bind; [apply stable_results_get|].
    intros v. apply stable_stage. }
  intros _. apply stable_bind.
  { apply stable_bind; [apply stable_results_get|].
    intros v. apply stable_stage. }
  intros _. apply stable_bind; [apply stable_results_get|]. intros v.
  apply stable_bind; [apply stable_results_get|]. intros v'.
  intros st. apply evolves_refl.
Qed.

(** X7. A queue on which [task_done] was never called more often than
    [put] stays so through [add_task], through [process_tasks] and
    through [run_pipeline], however they end: on such a queue the
    [task_done] of the loop cannot raise [ValueError]. *)
Theorem queue_stays_well_formed (st : state) :
  Queue_wf (task_queue st) ->
  (forall task : gmap string value,
     Queue_wf (task_queue (snd (add_task task st))))
  /\ Queue_wf (task_queue (snd (process_tasks st)))
  /\ (forall topic : string,
        Queue_wf (task_queue (snd (run_pipeline topic st)))).
Proof.
  intros Hwf. repeat split.
  - intros task. apply (stable_add_task task st). exact Hwf.
  - apply (stable_process_tasks st). exact Hwf.
  - intros topic. apply (stable_run_pipeline topic st). exact Hwf.
Qed.

(** X8. Neither the loop nor the pipeline, however they end, changes the
    registry of agents or removes a key from [results]: a value may be
    overwritten, never deleted. *)
Theorem registry_and_result_keys_are_kept (st : state) :
  agents (snd (process_tasks st)) = agents st
  /\ dom (results st) ⊆ dom (results (snd (process_tasks st)))
  /\ (forall topic : string,
        agents (snd (run_pipeline topic st)) = agents st
        /\ dom (results st) ⊆ dom (results (snd (run_pipeline topic st)))).
Proof.
  destruct (stable_process_tasks st) as (Ha & Hd & _).
  split; [exact Ha|]. split; [exact Hd|].
  intros topic. destruct (stable_run_pipeline topic st) as (Ha' & Hd' & _).
  auto.
Qed.

(** X9. [run_pipeline] on a queue that already holds a task dispatches
    that task first: when it names no registered agent, the run raises
    the [KeyError] of the lookup before the research agent is called, no
    request is sent, and the research task the run had just queued is
    left at the back of the queue. *)
Theorem leftover_task_runs_first (topic : string) (st : state)
    (task : gmap string value) (rest : list (gmap string value))
    (n : string) :
  q_items (task_queue st) = task :: rest ->
  task !! "agent" = Some (VStr n) ->
  agents st !! n = None ->
  exists st' : state,
    run_pipeline topic st = (Raised (KeyError (VStr n)), st')
    /\ q_items (task_queue st') = rest ++ [research_task topic]
    /\ ext st' = ext st
    /\ results st' = results st
    /\ trace st' = trace st ++ [EvPut (research_task topic); EvGet task].
Proof.
  intros E Hkey Ha.
  exists (dequeued (queued st (research_task topic)) task
            (rest ++ [research_task topic])).
  split; [|repeat split; simpl; rewrite <- ?app_assoc; reflexivity].
  unfold run_pipeline. apply bind_raised. unfold stage_research.
  change ((add_task (research_task topic) ;; process_tasks) st)
    with (process_tasks (queued st (research_task topic))).
  assert (Hq : q_items (task_queue (queued st (research_task topic)))
               = task :: rest ++ [research_task topic])
    by (simpl; rewrite E; reflexivity).
  apply (lookup_raises _ _ _ _ Hq).
  rewrite (process_one_eq _ _ _ Hq), Hkey. unfold agents_lookup. simpl.
  rewrite Ha. reflexivity.
Qed.

(** ** Runs of the registered agents *)

Lemma bind_raised_inv {S A B : Type} (m : M S A) (k : A -> M S B)
    (s s' : S) (e : exn) :
  bind m k s = (Raised e, s') ->
  m s = (Raised e, s')
  \/ exists (a : A) (s1 : S), m s = (Returned a, s1) /\ k a s1 = (Raised e, s').
Proof.
  unfold bind. destruct (m s) as [[a | e' | ] s1]; intros H.
  - right. eauto.
  - left. injection H as -> ->. reflexivity.
  - discriminate.
Qed.

Lemma stage_raised_inv (st st' : state) (task : gmap string value)
    (n : string) (a : Agent) (e : exn) :
  q_items (task_queue st) = [] ->
  task !! "agent" = Some (VStr n) ->
  agents st !! n = Some a ->
  (add_task task ;; process_tasks) st = (Raised e, st') ->
  exists x' : Ext,
    process_task a task (ext st) = (Raised e, x')
    /\ st' = stage_failed st task n x'.
Proof.
  intros E Hkey Ha Hrun. rewrite (stage_known _ _ _ _ E Hkey Ha) in Hrun.
  destruct (process_task a task (ext st)) as [[r | e' | ] x'];
    try discriminate.
  injection Hrun as -> <-. eauto.
Qed.

Lemma singleton_value_inj (key : string) (v v' : value) :
  ({[ key := v ]} : gmap string value) = {[ key := v' ]} -> v = v'.
Proof.
  intros H. apply (f_equal (fun m => m !! key)) in H.
  rewrite !lookup_singleton_eq in H. congruence.
Qed.

(** X10. A run of the registered agents that raises, started on an empty
    queue, stopped inside the call of an agent.  It leaves the queue
    empty (the failing task was taken off and is not put back), but
    [task_done] was not called for that task: the counter of unfinished
    tasks is one higher than before the run. *)
Theorem failed_run_skips_task_done (topic : string) (st st' : state)
    (e : exn) :
  agents st = init_agents ->
  q_items (task_queue st) = [] ->
  run_pipeline topic st = (Raised e, st') ->
  q_items (task_queue st') = []
  /\ unfinished_tasks (task_queue st')
     = S (unfinished_tasks (task_queue st))
  /\ exists (n : string) (task : gmap string value) (tl : list event),
       trace st' = trace st ++ tl ++ [EvInvoke n task].
Proof.
  intros Hag E Hrun. unfold run_pipeline in Hrun.
  apply bind_raised_inv in Hrun as [H1 | ([] & s1 & H1 & Hrun)].
  { unfold stage_research in H1.
    apply (stage_raised_inv _ _ (research_task topic) "research" (ResearchAgent "Research") _ E
             eq_refl) in H1 as (x' & _ & ->); [|rewrite Hag; reflexivity].
    split; [reflexivity|]. split; [reflexivity|].
    exists "research", (research_task topic),
      [EvPut (research_task topic); EvGet (research_task topic)].
    rewrite stage_failed_trace. reflexivity. }
  destruct (stage_research_inv _ _ _ E H1) as (b1 & r1 & x1 & Hb1 & Hp1 & ->).
  rewrite Hag, init_agents_research in Hb1. injection Hb1 as <-.
  destruct (ResearchAgent_produces _ _ _ _ _ Hp1) as [v1 ->].
  apply bind_raised_inv in Hrun as [H2 | ([] & s2 & H2 & Hrun)].
  { rewrite stage_writing_eq, staged_results in H2.
    rewrite (lookup_union_Some_l _ _ _ v1) in H2 by apply lookup_singleton_eq.
    apply (stage_raised_inv _ _ (writing_task topic v1) "writing" (WritingAgent "Writing") _
             (staged_queue_empty _ _ _ _ _) eq_refl)
      in H2 as (x' & _ & ->); [|rewrite staged_agents, Hag; reflexivity].
    split; [reflexivity|]. split; [reflexivity|].
    exists "writing", (writing_task topic v1),
      (stage_events (research_task topic) "research"
         {[ "research_results" := v1 ]}
       ++ [EvPut (writing_task topic v1); EvGet (writing_task topic v1)]).
    rewrite stage_failed_trace, staged_trace. unfold stage_events.
    repeat rewrite <- app_assoc. reflexivity. }
  destruct (stage_writing_inv _ _ _ (staged_queue_empty _ _ _ _ _) H2)
    as (u1 & b2 & r2 & x2 & Hu1 & Hb2 & Hp2 & ->).
  rewrite staged_results in Hu1.
  rewrite (lookup_union_Some_l _ _ _ v1) in Hu1 by apply lookup_singleton_eq.
  injection Hu1 as <-.
  rewrite staged_agents, Hag, init_agents_writing in Hb2.
  injection Hb2 as <-.
  destruct (WritingAgent_produces _ _ _ _ _ Hp2) as [v2 ->].
  apply bind_raised_inv in Hrun as [H3 | ([] & s3 & H3 & Hrun)].
  { rewrite stage_editing_eq, staged_results in H3.
    rewrite (lookup_union_Some_l _ _ _ v2) in H3 by apply lookup_singleton_eq.
    apply (stage_raised_inv _ _ (editing_task v2) "editing" (EditingAgent "Editing") _
             (staged_queue_empty _ _ _ _ _) eq_refl)
      in H3 as (x' & _ & ->); [|rewrite !staged_agents, Hag; reflexivity].
    split; [reflexivity|]. split; [reflexivity|].
    exists "editing", (editing_task v2),
      (stage_events (research_task topic) "research"
         {[ "research_results" := v1 ]}
       ++ stage_events (writing_task topic v1) "writing"
            {[ "blog_post" := v2 ]}
       ++ [EvPut (editing_task v2); EvGet (editing_task v2)]).
    rewrite stage_failed_trace, !staged_trace. unfold stage_events.
    repeat rewrite <- app_assoc. reflexivity. }
  destruct (stage_editing_inv _ _ (staged_queue_empty _ _ _ _ _) H3)
    as (u2 & b3 & r3 & x3 & Hu2 & Hb3 & Hp3 & ->).
  rewrite staged_results in Hu2.
  rewrite (lookup_union_Some_l _ _ _ v2) in Hu2 by apply lookup_singleton_eq.
  injection Hu2 as <-.
  rewrite !staged_agents, Hag, init_agents_editing in Hb3.
  injection Hb3 as <-.
  destruct (EditingAgent_produces _ _ _ _ _ Hp3) as [v3 ->].
  apply bind_raised_inv in Hrun as [H4 | ([] & s4 & H4 & Hrun)].
  { rewrite stage_seo_eq, staged_results in H4.
    rewrite (lookup_union_Some_l _ _ _ v3) in H4 by apply lookup_singleton_eq.
    apply (stage_raised_inv _ _ (seo_task v3) "seo" (SEOAgent "SEO") _
             (staged_queue_empty _ _ _ _ _) eq_refl)
      in H4 as (x' & _ & ->); [|rewrite !staged_agents, Hag; reflexivity].
    split; [reflexivity|]. split; [reflexivity|].
    exists "seo", (seo_task v3),
      (stage_events (research_task topic) "research"
         {[ "research_results" := v1 ]}
       ++ stage_events (writing_task topic v1) "writing"
            {[ "blog_post" := v2 ]}
       ++ stage_events (editing_task v2) "editing"
            {[ "edited_post" := v3 ]}
       ++ [EvPut (seo_task v3); EvGet (seo_task v3)]).
    rewrite stage_failed_trace, !staged_trace. unfold stage_events.
    repeat rewrite <- app_assoc. reflexivity. }
  destruct (stage_seo_inv _ _ (staged_queue_empty _ _ _ _ _) H4)
    as (u3 & b4 & r4 & x4 & Hu3 & Hb4 & Hp4 & ->).
  rewrite staged_results in Hu3.
  rewrite (lookup_union_Some_l _ _ _ v3) in Hu3 by apply lookup_singleton_eq.
  injection Hu3 as <-.
  rewrite !staged_agents, Hag, init_agents_seo in Hb4.
  injection Hb4 as <-.
  destruct (SEOAgent_produces _ _ _ _ _ Hp4) as [v4 ->].
  rewrite final_artifact_eq, !staged_results in Hrun.
  rewrite (lookup_union_r _ _ "edited_post") in Hrun
    by (apply lookup_singleton_ne; discriminate).
  rewrite (lookup_union_Some_l _ _ "edited_post" v3) in Hrun
    by apply lookup_singleton_eq.
  rewrite (lookup_union_Some_l _ _ "seo_metadata" v4) in Hrun
    by apply lookup_singleton_eq.
  discriminate.
Qed.

Lemma post_outcome_inv (url : string) (headers : list (string * value))
    (json : value) (extract : value -> exn + value) (key : string)
    (x x' : Ext) (r : gmap string value) :
  post_outcome url headers json extract key x = (Returned r, x') ->
  exists body v : value,
    session_post url headers json (world x) = (inr body, world x')
    /\ extract body = inr v
    /\ r = {[ key := v ]}
    /\ calls x' = calls x ++ [PostCall url headers json].
Proof.
  unfold post_outcome.
  destruct (session_post url headers json (world x)) as [[e | body] w'];
    [discriminate|].
  destruct (extract body) as [e | v] eqn:Hv; [discriminate|].
  intros [= <- <-]. exists body, v. auto.
Qed.

Lemma ResearchAgent_returned_inv (task : gmap string value) (x x' : Ext)
    (r : gmap string value) :
  ResearchAgent_process_task task x = (Returned r, x') ->
  exists (q : value) (hits : list value),
    task !! "query" = Some q
    /\ ddgs_text q 5 (world x) = (inr hits, world x')
    /\ r = {[ "research_results" := VList hits ]}
    /\ calls x' = calls x ++ [SearchCall q 5].
Proof.
  rewrite ResearchAgent_eq.
  destruct (task !! "query") as [q|]; [|discriminate].
  destruct (ddgs_text q 5 (world x)) as [[e | hits] w'] eqn:Hs;
    [discriminate|].
  intros [= <- <-]. exists q, hits. auto.
Qed.

(** A run of the registered agents that returns: the four requests it
    sent, each answered, each answer of the expected shape. *)
Lemma returned_run_calls (topic : string) (st st' : state)
    (art : gmap string value) :
  agents st = init_agents ->
  q_items (task_queue st) = [] ->
  run_pipeline topic st = (Returned art, st') ->
  exists (hits : list value) (body2 body3 body4 v2 v3 v4 : value)
         (x1 x2 x3 x4 : Ext),
    st' = completed topic st (VList hits) v2 v3 v4 x1 x2 x3 x4
    /\ art = {[ "blog_post" := v3; "seo_metadata" := v4 ]}
    /\ (ddgs_text (VStr topic) 5 (world (ext st)) = (inr hits, world x1)
        /\ calls x1 = calls (ext st) ++ [SearchCall (VStr topic) 5])
    /\ (session_post azure_url azure_headers
          (writing_json (writing_prompt (VStr topic) (VList hits)))
          (world x1)
        = (inr body2, world x2)
        /\ chat_content body2 = inr v2
        /\ calls x2
           = calls x1
             ++ [PostCall azure_url azure_headers
                   (writing_json
                      (writing_prompt (VStr topic) (VList hits)))])
    /\ (session_post anthropic_url anthropic_headers
          (editing_json (editing_prompt v2)) (world x2)
        = (inr body3, world x3)
        /\ message_text body3 = inr v3
        /\ calls x3
           = calls x2
             ++ [PostCall anthropic_url anthropic_headers
                   (editing_json (editing_prompt v2))])
    /\ (session_post azure_url azure_headers (seo_json (seo_prompt v3))
          (world x3)
        = (inr body4, world x4)
        /\ chat_content body4 = inr v4
        /\ calls x4
           = calls x3
             ++ [PostCall azure_url azure_headers
                   (seo_json (seo_prompt v3))]).
Proof.
  intros Hag E Hrun.
  destruct (run_pipeline_returned_inv topic st st' art
              (ResearchAgent "Research") (WritingAgent "Writing")
              (EditingAgent "Editing") (SEOAgent "SEO") E)
    as (v1 & v2 & v3 & v4 & x1 & x2 & x3 & x4 & H1 & H2 & H3 & H4 & -> & ->);
    try (rewrite Hag; reflexivity);
    auto using ResearchAgent_produces, WritingAgent_produces,
      EditingAgent_produces, SEOAgent_produces.
  simpl in H1. apply ResearchAgent_returned_inv in H1
    as (q & hits & Hq & Hs & Hr & Hc1).
  change (research_task topic !! "query") with (Some (VStr topic)) in Hq.
  injection Hq as <-. apply singleton_value_inj in Hr. subst v1.
  simpl in H2. rewrite WritingAgent_eq in H2.
  change (writing_task topic (VList hits) !! "topic")
    with (Some (VStr topic)) in H2.
  change (writing_task topic (VList hits) !! "research_results")
    with (Some (VList hits)) in H2.
  cbv beta iota in H2.
  apply post_outcome_inv in H2 as (body2 & u2 & Hp2 & Hc2 & Hr2 & Hl2).
  apply singleton_value_inj in Hr2. subst u2.
  simpl in H3. rewrite EditingAgent_eq in H3.
  change (editing_task v2 !! "blog_post") with (Some v2) in H3.
  cbv beta iota in H3.
  apply post_outcome_inv in H3 as (body3 & u3 & Hp3 & Hc3 & Hr3 & Hl3).
  apply singleton_value_inj in Hr3. subst u3.
  simpl in H4. rewrite SEOAgent_eq in H4.
  change (seo_task v3 !! "edited_post") with (Some v3) in H4.
  cbv beta iota in H4.
  apply post_outcome_inv in H4 as (body4 & u4 & Hp4 & Hc4 & Hr4 & Hl4).
  apply singleton_value_inj in Hr4. subst u4.
  exists hits, body2, body3, body4, v2, v3, v4, x1, x2, x3, x4.
  repeat split; assumption || reflexivity.
Qed.

(** X11. [run_pipeline], for the registered agents on an empty queue,
    returns an artifact only when all four requests were answered, one
    after the other, each with a body of the expected shape; the artifact
    holds the texts found in the third and fourth bodies.  There is no
    partial success. *)
Theorem returned_run_means_all_calls_succeeded (topic : string)
    (st st' : state) (art : gmap string value) :
  agents st = init_agents ->
  q_items (task_queue st) = [] ->
  run_pipeline topic st = (Returned art, st') ->
  exists (hits : list value) (body2 body3 body4 v2 v3 v4 : value)
         (w1 w2 w3 : W),
    ddgs_text (VStr topic) 5 (world (ext st)) = (inr hits, w1)
    /\ session_post azure_url azure_headers
         (writing_json (writing_prompt (VStr topic) (VList hits))) w1
       = (inr body2, w2)
    /\ chat_content body2 = inr v2
    /\ session_post anthropic_url anthropic_headers
         (editing_json (editing_prompt v2)) w2
       = (inr body3, w3)
    /\ message_text body3 = inr v3
    /\ session_post azure_url azure_headers (seo_json (seo_prompt v3)) w3
       = (inr body4, world (ext st'))
    /\ chat_content body4 = inr v4
    /\ art = {[ "blog_post" := v3; "seo_metadata" := v4 ]}.
Proof.
  intros Hag E Hrun.
  destruct (returned_run_calls _ _ _ _ Hag E Hrun)
    as (hits & body2 & body3 & body4 & v2 & v3 & v4 & x1 & x2 & x3 & x4
        & -> & -> & (Hs & _) & (Hp2 & Hc2 & _) & (Hp3 & Hc3 & _)
        & (Hp4 & Hc4 & _)).
  exists hits, body2, body3, body4, v2, v3, v4, (world x1), (world x2),
    (world x3).
  repeat split; assumption.
Qed.


(** ** The shape of a body *)

(** Only a dictionary can be subscripted by a string. *)
Lemma py_getitem_str_inv (v x : value) (s : string) :
  py_getitem v (VStr s) = inr x ->
  exists d : list (string * value), v = VDict d /\ dict_get s d = Some x.
Proof.
  destruct v as [ | b | z | s' | l | d]; simpl; try discriminate.
  destruct (dict_get s d) as [y|] eqn:Hd; [|discriminate].
  intros [= <-]. eauto.
Qed.

(** [v[0]] is a dictionary only when [v] is a list that starts with it. *)
Lemma py_getitem_0_dict_inv (v : value) (d : list (string * value)) :
  py_getitem v (VInt 0) = inr (VDict d) ->
  exists others : list value, v = VList (VDict d :: others).
Proof.
  destruct v as [ | b | z | s | l | d']; simpl; try discriminate.
  - destruct s; simpl; discriminate.
  - destruct l as [|y l]; simpl; [discriminate|].
    intros [= ->]. eauto.
Qed.

(** X13. [result['choices'][0]['message']['content']] yields a value
    exactly when the body is a dictionary whose ['choices'] is a list
    that starts with a dictionary whose ['message'] is a dictionary that
    has ['content']; every other body makes the subscripts raise. *)
Theorem chat_content_shape (body v : value) :
  chat_content body = inr v
  <-> exists (d dc dm : list (string * value)) (others : list value),
        body = VDict d
        /\ dict_get "choices" d = Some (VList (VDict dc :: others))
        /\ dict_get "message" dc = Some (VDict dm)
        /\ dict_get "content" dm = Some v.
Proof.
  split.
  - unfold chat_content. simpl. intros H.
    destruct (py_getitem body (VStr "choices")) as [|c] eqn:H0;
      [discriminate|].
    destruct (py_getitem c (VInt 0)) as [|c0] eqn:H1; [discriminate|].
    destruct (py_getitem c0 (VStr "message")) as [|m] eqn:H2;
      [discriminate|].
    destruct (py_getitem m (VStr "content")) as [|y] eqn:H3;
      [discriminate|].
    injection H as ->.
    apply py_getitem_str_inv in H0 as (d & -> & Hc).
    apply py_getitem_str_inv in H2 as (dc & -> & Hm).
    apply py_getitem_str_inv in H3 as (dm & -> & Hv).
    apply py_getitem_0_dict_inv in H1 as (others & ->).
    eauto 10.
  - intros (d & dc & dm & others & -> & Hc & Hm & Hv).
    unfold chat_content. simpl. rewrite Hc. simpl. rewrite Hm. simpl.
    rewrite Hv. reflexivity.
Qed.

(** X14. [result['content'][0]['text']] yields a value exactly when the
    body is a dictionary whose ['content'] is a list that starts with a
    dictionary that has ['text']. *)
Theorem message_text_shape (body v : value) :
  message_text body = inr v
  <-> exists (d db : list (string * value)) (others : list value),
        body = VDict d
        /\ dict_get "content" d = Some (VList (VDict db :: others))
        /\ dict_get "text" db = Some v.
Proof.
  split.
  - unfold message_text. simpl. intros H.
    destruct (py_getitem body (VStr "content")) as [|c] eqn:H0;
      [discriminate|].
    destruct (py_getitem c (VInt 0)) as [|c0] eqn:H1; [discriminate|].
    destruct (py_getitem c0 (VStr "text")) as [|y] eqn:H2; [discriminate|].
    injection H as ->.
    apply py_getitem_str_inv in H0 as (d & -> & Hc).
    apply py_getitem_str_inv in H2 as (db & -> & Hv).
    apply py_getitem_0_dict_inv in H1 as (others & ->).
    eauto 10.
  - intros (d & db & others & -> & Hc & Hv).
    unfold message_text. simpl. rewrite Hc. simpl. rewrite Hv. reflexivity.
Qed.

(** ** The registry *)

Lemma init_agents_dom : dom (init_agents (P := P)) = agent_keys.
Proof.
  unfold init_agents, agent_keys.
  rewrite !dom_insert_L, dom_singleton_L.
  apply set_eq. intros k. set_unfold. tauto.
Qed.


End Further.

(** ** The final artifact *)

(** C1. A run of the registered agents that returns, returns exactly
    [{blog_post: v_edited, seo_metadata: v_seo}], where [v_edited] is what
    the editing stage merged under ['edited_post'] and [v_seo] what the
    SEO stage merged under ['seo_metadata'] (both still in [results]);
    and in the scenario of the specification the artifact is
    [{blog_post: "Edited text", seo_metadata: "meta: remote work"}]. *)
Theorem run_pipeline_returns_edited_and_seo :
  (forall (W : Type) (P : Providers W) (topic : string) (st st' : state W)
          (art : gmap string value),
     agents st = init_agents (P := P) ->
     q_items (task_queue st) = [] ->
     run_pipeline topic st = (Returned art, st') ->
     exists v_research v_draft v_edited v_seo : value,
       trace st'
       = trace st
         ++ stage_events (research_task topic) "research"
              {[ "research_results" := v_research ]}
         ++ stage_events (writing_task topic v_research) "writing"
              {[ "blog_post" := v_draft ]}
         ++ stage_events (editing_task v_draft) "editing"
              {[ "edited_post" := v_edited ]}
         ++ stage_events (seo_task v_edited) "seo"
              {[ "seo_metadata" := v_seo ]}
       /\ results st' !! "edited_post" = Some v_edited
       /\ results st' !! "seo_metadata" = Some v_seo
       /\ art = {[ "blog_post" := v_edited; "seo_metadata" := v_seo ]})
  /\ fst (run_pipeline remote_work scenario)
     = Returned {[ "blog_post" := VStr "Edited text";
                   "seo_metadata" := VStr "meta: remote work" ]}.
Proof.
  split.
  - intros W P topic st st' art. apply completed_run_artifact.
  - vm_compute. reflexivity.
Qed.

(** * Instances in the scenarios *)

Lemma run_pipeline_returns_edited_and_seo_witness :
  exists v_research v_draft v_edited v_seo : value,
    trace (snd (run_pipeline remote_work scenario))
    = trace scenario
      ++ stage_events (research_task remote_work) "research"
           {[ "research_results" := v_research ]}
      ++ stage_events (writing_task remote_work v_research) "writing"
           {[ "blog_post" := v_draft ]}
      ++ stage_events (editing_task v_draft) "editing"
           {[ "edited_post" := v_edited ]}
      ++ stage_events (seo_task v_edited) "seo"
           {[ "seo_metadata" := v_seo ]}
    /\ results (snd (run_pipeline remote_work scenario)) !! "edited_post"
       = Some v_edited
    /\ results (snd (run_pipeline remote_work scenario)) !! "seo_metadata"
       = Some v_seo
    /\ {[ "blog_post" := VStr "Edited text";
          "seo_metadata" := VStr "meta: remote work" ]}
       = ({[ "blog_post" := v_edited; "seo_metadata" := v_seo ]}
          : gmap string value).
Proof.
  apply (proj1 run_pipeline_returns_edited_and_seo nat scenario_providers
           remote_work scenario).
  - reflexivity.
  - reflexivity.
  - vm_compute. reflexivity.
Defined.

Lemma process_tasks_empty_queue_witness :
  process_tasks scenario = (Returned tt, scenario).
Proof. apply process_tasks_empty_queue. reflexivity. Defined.

Lemma unknown_agent_raises_before_any_call_witness :
  exists st' : state nat,
    process_tasks (queued scenario nonexistent_task)
    = (Raised (KeyError (VStr "nonexistent")), st')
    /\ results st' = results (queued scenario nonexistent_task)
    /\ ext st' = ext (queued scenario nonexistent_task)
    /\ trace st'
       = trace (queued scenario nonexistent_task) ++ [EvGet nonexistent_task]
    /\ q_items (task_queue st') = [].
Proof.
  apply (unknown_agent_raises_before_any_call
           (queued scenario nonexistent_task) nonexistent_task []
           "nonexistent").
  - reflexivity.
  - reflexivity.
  - reflexivity.
Defined.

Lemma process_tasks_drains_fifo_witness :
  q_items (task_queue (snd (process_tasks two_queued))) = []
  /\ exists steps : list (string * gmap string value),
       Forall2 (routed (agents two_queued)) (q_items (task_queue two_queued))
               steps
       /\ dispatches (agents two_queued) (q_items (task_queue two_queued))
            steps (ext two_queued) (ext (snd (process_tasks two_queued)))
       /\ trace (snd (process_tasks two_queued))
          = trace two_queued
            ++ drain_events (q_items (task_queue two_queued)) steps
       /\ results (snd (process_tasks two_queued))
          = merge_all steps (results two_queued).
Proof.
  apply (process_tasks_drains_fifo two_queued).
  vm_compute. reflexivity.
Defined.

Lemma results_written_once_witness :
  dom (results (snd (run_pipeline remote_work scenario))) = result_keys
  /\ exists tl : list event,
       trace (snd (run_pipeline remote_work scenario)) = trace scenario ++ tl
       /\ written_keys tl
          = ["research_results"; "blog_post"; "edited_post"; "seo_metadata"].
Proof.
  apply (results_written_once (P := scenario_providers) remote_work scenario _
           {[ "blog_post" := VStr "Edited text";
              "seo_metadata" := VStr "meta: remote work" ]}).
  - reflexivity.
  - reflexivity.
  - change (dom (∅ : gmap string value) ⊆ result_keys).
    rewrite dom_empty_L. apply empty_subseteq.
  - vm_compute. reflexivity.
Defined.


Lemma run_pipeline_returns_provider_texts_witness :
  exists st' : state nat,
    run_pipeline remote_work scenario
    = (Returned {[ "blog_post" := VStr "Edited text";
                   "seo_metadata" := VStr "meta: remote work" ]}, st')
    /\ world (ext st') = 4%nat.
Proof.
  apply (run_pipeline_returns_provider_texts (P := scenario_providers)
           remote_work scenario hits_A
           (azure_body (VStr "Draft text"))
           (anthropic_body (VStr "Edited text"))
           (azure_body (VStr "meta: remote work"))
           (VStr "Draft text") (VStr "Edited text")
           (VStr "meta: remote work") 1%nat 2%nat 3%nat 4%nat).
  - reflexivity.
  - reflexivity.
  - reflexivity.
  - reflexivity.
  - reflexivity.
  - reflexivity.
  - reflexivity.
  - reflexivity.
  - reflexivity.
Defined.

(** C9 as stated fails: the four requests succeed, the editing provider
    answers with the empty text, and the run returns it as the blog
    post. *)
Lemma empty_text_is_returned :
  fst (run_pipeline remote_work empty_edit)
  = Returned {[ "blog_post" := VStr "";
                "seo_metadata" := VStr "meta: remote work" ]}.
Proof. vm_compute. reflexivity. Qed.

Lemma agent_failure_aborts_run_witness :
  (exists (st' : state nat) (tl : list event),
     run_pipeline remote_work search_down = (Raised provider_down, st')
     /\ ext st'
        = snd (process_task (ResearchAgent (P := search_down_providers)
                               "Research")
                 (research_task remote_work) (ext search_down))
     /\ trace st' = trace search_down ++ tl
     /\ invoked_keys tl = ["research"])
  /\ (exists (st' : state nat) (tl : list event),
        run_pipeline remote_work (failing 1) = (Raised provider_down, st')
        /\ ext st'
           = snd (process_task (WritingAgent (P := failing_providers 1)
                                  "Writing")
                    (writing_task remote_work (VList hits_A))
                    (ext (after_research (failing 1))))
        /\ trace st' = trace (failing 1) ++ tl
        /\ invoked_keys tl = ["research"; "writing"])
  /\ (exists (st' : state nat) (tl : list event),
        run_pipeline remote_work (failing 2) = (Raised provider_down, st')
        /\ ext st'
           = snd (process_task (EditingAgent (P := failing_providers 2)
                                  "Editing")
                    (editing_task (VStr "Draft text"))
                    (ext (after_writing (failing 2))))
        /\ trace st' = trace (failing 2) ++ tl
        /\ invoked_keys tl = ["research"; "writing"; "editing"])
  /\ (exists (st' : state nat) (tl : list event),
        run_pipeline remote_work (failing 3) = (Raised provider_down, st')
        /\ ext st'
           = snd (process_task (SEOAgent (P := failing_providers 3) "SEO")
                    (seo_task (VStr "Edited text"))
                    (ext (after_editing (failing 3))))
        /\ trace st' = trace (failing 3) ++ tl
        /\ invoked_keys tl = ["research"; "writing"; "editing"; "seo"])
  /\ (exists (st' : state nat) (tl : list event),
        run_pipeline remote_work (failing 2) = (Raised provider_down, st')
        /\ world (ext st') = 3%nat
        /\ calls (ext st')
           = calls (ext (after_writing (failing 2)))
             ++ [PostCall anthropic_url
                   (anthropic_headers (P := failing_providers 2))
                   (editing_json
                      (editing_prompt (P := failing_providers 2)
                         (VStr "Draft text")))]
        /\ trace st' = trace (failing 2) ++ tl
        /\ invoked_keys tl = ["research"; "writing"; "editing"]).
Proof.
  split; [|split; [|split; [|split]]].
  - apply (proj1 (agent_failure_aborts_run (P := search_down_providers)
                    remote_work search_down provider_down eq_refl)
             (ResearchAgent (P := search_down_providers) "Research")).
    + reflexivity.
    + reflexivity.
  - apply (proj1 (proj2 (agent_failure_aborts_run (P := failing_providers 1)
                           remote_work (failing 1) provider_down eq_refl))
             (after_research (failing 1)) (VList hits_A)
             (WritingAgent (P := failing_providers 1) "Writing")).
    + vm_compute. reflexivity.
    + reflexivity.
    + reflexivity.
    + vm_compute. reflexivity.
  - apply (proj1 (proj2 (proj2 (agent_failure_aborts_run
                                  (P := failing_providers 2) remote_work
                                  (failing 2) provider_down eq_refl)))
             (after_research (failing 2)) (after_writing (failing 2))
             (VStr "Draft text")
             (EditingAgent (P := failing_providers 2) "Editing")).
    + vm_compute. reflexivity.
    + vm_compute. reflexivity.
    + reflexivity.
    + reflexivity.
    + vm_compute. reflexivity.
  - apply (proj1 (proj2 (proj2 (proj2 (agent_failure_aborts_run
                                         (P := failing_providers 3)
                                         remote_work (failing 3)
                                         provider_down eq_refl))))
             (after_research (failing 3)) (after_writing (failing 3))
             (after_editing (failing 3)) (VStr "Edited text")
             (SEOAgent (P := failing_providers 3) "SEO")).
    + vm_compute. reflexivity.
    + vm_compute. reflexivity.
    + vm_compute. reflexivity.
    + reflexivity.
    + reflexivity.
    + vm_compute. reflexivity.
  - apply (proj2 (proj2 (proj2 (proj2 (agent_failure_aborts_run
                                         (P := failing_providers 2)
                                         remote_work (failing 2)
                                         provider_down eq_refl))))
             (after_research (failing 2)) (after_writing (failing 2))
             (VStr "Draft text") "Editing").
    + vm_compute. reflexivity.
    + vm_compute. reflexivity.
    + reflexivity.
    + reflexivity.
    + reflexivity.
Defined.

Lemma missing_prerequisite_aborts_witness :
  run_pipeline remote_work (with_stub "research")
  = (Raised (KeyError (VStr "research_results")),
     after_research (with_stub "research"))
  /\ run_pipeline remote_work (with_stub "writing")
     = (Raised (KeyError (VStr "blog_post")),
        after_writing (with_stub "writing"))
  /\ run_pipeline remote_work (with_stub "editing")
     = (Raised (KeyError (VStr "edited_post")),
        after_editing (with_stub "editing")).
Proof.
  split; [|split].
  - apply (proj1 (missing_prerequisite_aborts remote_work
                    (with_stub "research"))).
    + vm_compute. reflexivity.
    + reflexivity.
  - apply (proj1 (proj2 (missing_prerequisite_aborts remote_work
                           (with_stub "writing")))
             (after_research (with_stub "writing"))).
    + vm_compute. reflexivity.
    + vm_compute. reflexivity.
    + reflexivity.
  - apply (proj2 (proj2 (missing_prerequisite_aborts remote_work
                           (with_stub "editing")))
             (after_research (with_stub "editing"))
             (after_writing (with_stub "editing"))).
    + vm_compute. reflexivity.
    + vm_compute. reflexivity.
    + vm_compute. reflexivity.
    + reflexivity.
Defined.



(** * Instances of the further properties *)


Lemma bad_agent_selector_raises_witness :
  process_tasks (queued scenario unaddressed_task)
  = (Raised (KeyError (VStr "agent")),
     dequeued (queued scenario unaddressed_task) unaddressed_task [])
  /\ process_tasks (queued scenario none_selector_task)
     = (Raised (KeyError VNone),
        dequeued (queued scenario none_selector_task) none_selector_task [])
  /\ process_tasks (queued scenario list_selector_task)
     = (Raised TypeError,
        dequeued (queued scenario list_selector_task) list_selector_task []).
Proof.
  pose (thm := fun task =>
          bad_agent_selector_raises (queued scenario task) task [] eq_refl).
  split; [|split].
  - apply (proj1 (thm unaddressed_task)). reflexivity.
  - apply (proj1 (proj2 (thm none_selector_task)) VNone).
    + reflexivity.
    + intros n. discriminate.
    + reflexivity.
  - apply (proj2 (proj2 (thm list_selector_task)) (VList [VStr "research"])).
    + reflexivity.
    + reflexivity.
Defined.

Lemma base_agent_is_not_implemented_witness :
  process_tasks (queued with_base (bare_task "draft"))
  = (Raised NotImplementedError,
     invoked (queued with_base (bare_task "draft")) (bare_task "draft") []
       "draft" (ext with_base)).
Proof.
  apply (base_agent_is_not_implemented (queued with_base (bare_task "draft"))
           (bare_task "draft") [] "draft" "Draft").
  - reflexivity.
  - reflexivity.
  - reflexivity.
Defined.

Lemma failed_dispatch_keeps_rest_queued_witness :
  exists (done : list (gmap string value))
         (steps : list (string * gmap string value))
         (task : gmap string value) (rest : list (gmap string value))
         (x : Ext nat),
    q_items (task_queue three_queued) = done ++ task :: rest
    /\ Forall2 (routed (agents three_queued)) done steps
    /\ dispatches (agents three_queued) done steps (ext three_queued) x
    /\ q_items (task_queue (snd (process_tasks three_queued))) = rest
    /\ results (snd (process_tasks three_queued))
       = merge_all steps (results three_queued)
    /\ unfinished_tasks (task_queue (snd (process_tasks three_queued)))
       = (unfinished_tasks (task_queue three_queued) - length done)%nat
    /\ ((trace (snd (process_tasks three_queued))
         = trace three_queued ++ drain_events done steps ++ [EvGet task]
         /\ ext (snd (process_tasks three_queued)) = x)
        \/ exists (n : string) (a : Agent nat),
             trace (snd (process_tasks three_queued))
             = trace three_queued ++ drain_events done steps
               ++ [EvGet task; EvInvoke n task]
             /\ task !! "agent" = Some (VStr n)
             /\ agents three_queued !! n = Some a
             /\ process_task a task x
                = (Raised (KeyError (VStr "nonexistent")),
                   ext (snd (process_tasks three_queued)))).
Proof.
  apply (failed_dispatch_keeps_rest_queued three_queued
           (snd (process_tasks three_queued))
           (KeyError (VStr "nonexistent"))).
  - unfold Queue_wf. simpl. lia.
  - vm_compute. reflexivity.
Defined.

Lemma drained_queue_is_balanced_witness :
  unfinished_tasks (task_queue two_queued)
  = (length (q_items (task_queue two_queued))
     + unfinished_tasks (task_queue (snd (process_tasks two_queued))))%nat
  /\ Queue_wf (task_queue (snd (process_tasks two_queued))).
Proof.
  apply (drained_queue_is_balanced two_queued).
  vm_compute. reflexivity.
Defined.

Lemma process_tasks_twice_witness :
  (process_tasks ;; process_tasks)%co two_queued
  = (Returned tt, snd (process_tasks two_queued)).
Proof.
  apply (process_tasks_twice two_queued).
  vm_compute. reflexivity.
Defined.

Lemma queue_stays_well_formed_witness :
  (forall task : gmap string value,
     Queue_wf (task_queue (snd (add_task task three_queued))))
  /\ Queue_wf (task_queue (snd (process_tasks three_queued)))
  /\ (forall topic : string,
        Queue_wf (task_queue (snd (run_pipeline topic three_queued)))).
Proof.
  apply (queue_stays_well_formed three_queued).
  unfold Queue_wf. simpl. lia.
Defined.

Lemma leftover_task_runs_first_witness :
  exists st' : state nat,
    run_pipeline remote_work (queued scenario nonexistent_task)
    = (Raised (KeyError (VStr "nonexistent")), st')
    /\ q_items (task_queue st') = [] ++ [research_task remote_work]
    /\ ext st' = ext (queued scenario nonexistent_task)
    /\ results st' = results (queued scenario nonexistent_task)
    /\ trace st'
       = trace (queued scenario nonexistent_task)
         ++ [EvPut (research_task remote_work); EvGet nonexistent_task].
Proof.
  apply (leftover_task_runs_first remote_work
           (queued scenario nonexistent_task) nonexistent_task []
           "nonexistent").
  - reflexivity.
  - reflexivity.
  - reflexivity.
Defined.

Lemma failed_run_skips_task_done_witness :
  q_items (task_queue (snd (run_pipeline remote_work (failing 2)))) = []
  /\ unfinished_tasks (task_queue (snd (run_pipeline remote_work (failing 2))))
     = S (unfinished_tasks (task_queue (failing 2)))
  /\ exists (n : string) (task : gmap string value) (tl : list event),
       trace (snd (run_pipeline remote_work (failing 2)))
       = trace (failing 2) ++ tl ++ [EvInvoke n task].
Proof.
  apply (failed_run_skips_task_done (P := failing_providers 2) remote_work
           (failing 2) _ provider_down).
  - reflexivity.
  - reflexivity.
  - vm_compute. reflexivity.
Defined.

Lemma returned_run_means_all_calls_succeeded_witness :
  exists (hits : list value) (body2 body3 body4 v2 v3 v4 : value)
         (w1 w2 w3 : nat),
    ddgs_text (Providers := scenario_providers) (VStr remote_work) 5
      (world (ext scenario))
    = (inr hits, w1)
    /\ session_post (Providers := scenario_providers)
         (azure_url (P := scenario_providers))
         (azure_headers (P := scenario_providers))
         (writing_json
            (writing_prompt (P := scenario_providers) (VStr remote_work)
               (VList hits))) w1
       = (inr body2, w2)
    /\ chat_content body2 = inr v2
    /\ session_post (Providers := scenario_providers) anthropic_url
         (anthropic_headers (P := scenario_providers))
         (editing_json (editing_prompt (P := scenario_providers) v2)) w2
       = (inr body3, w3)
    /\ message_text body3 = inr v3
    /\ session_post (Providers := scenario_providers)
         (azure_url (P := scenario_providers))
         (azure_headers (P := scenario_providers))
         (seo_json (seo_prompt (P := scenario_providers) v3)) w3
       = (inr body4, world (ext (snd (run_pipeline remote_work scenario))))
    /\ chat_content body4 = inr v4
    /\ {[ "blog_post" := VStr "Edited text";
          "seo_metadata" := VStr "meta: remote work" ]}
       = ({[ "blog_post" := v3; "seo_metadata" := v4 ]}
          : gmap string value).
Proof.
  apply (returned_run_means_all_calls_succeeded (P := scenario_providers)
           remote_work scenario).
  - reflexivity.
  - reflexivity.
  - vm_compute. reflexivity.
Defined.

